(** * CircleAPI: a shallow embedding of [circle.py]

    The client of [circle.py] builds authenticated request URLs, issues
    GET / POST / DELETE calls through [requests], and reshapes the JSON
    answers.  Python objects are modelled by the type [value], a [dict] by
    a finite map whose enumeration order is left to the interpreter
    ([DictOrder]), an [OrderedDict] by an association list in insertion
    order, exceptions by the error monad [result], and the [requests]
    transport by a double that answers every request and records it.
    Text is held as bytes: a [str] as it is, a [unicode] object by its
    UTF-8 encoding, so that text is ASCII exactly when every byte is below
    128. *)

From Stdlib Require Import ZArith Ascii String List.
From stdpp Require Import gmap strings list fin_maps pretty.

Set Warnings "-register-all".
Local Open Scope string_scope.
Local Open Scope Z_scope.

(** ** Text helpers (Python [str] operations used by the source) *)

Module Str.

(** [c in s] for a single character [c]. *)
Definition contains (c : ascii) (s : string) : bool :=
  existsb (Ascii.eqb c) (list_ascii_of_string s).

(** [sep.join(parts)]. *)
Definition join (sep : string) (parts : list string) : string :=
  String.concat sep parts.

(** [s.replace(a, b)] for single characters [a] and [b]. *)
Fixpoint replace (a b : ascii) (s : string) : string :=
  match s with
  | EmptyString => EmptyString
  | String c rest =>
      String (if Ascii.eqb c a then b else c) (replace a b rest)
  end.

(** [s[:n]] and [s[n:]]. *)
Definition take (n : nat) (s : string) : string := String.substring 0 n s.
Definition drop (n : nat) (s : string) : string :=
  String.substring n (String.length s - n) s.

(** [s.lower()] on ASCII letters. *)
Definition lower_char (c : ascii) : ascii :=
  let n := nat_of_ascii c in
  if (Nat.leb 65 n && Nat.leb n 90)%bool then ascii_of_nat (n + 32) else c.

Fixpoint lower (s : string) : string :=
  match s with
  | EmptyString => EmptyString
  | String c rest => String (lower_char c) (lower rest)
  end.

(** A continuation byte of UTF-8 (binary 10xxxxxx). *)
Definition is_continuation (c : ascii) : bool :=
  let n := nat_of_ascii c in (Nat.leb 128 n && Nat.ltb n 192)%bool.

(** The characters of [s], as iterating over a [unicode] text yields them:
    each lead byte with the continuation bytes that follow it. *)
Fixpoint chars (s : string) : list string :=
  match s with
  | EmptyString => nil
  | String c rest =>
      match chars rest with
      | g :: gs =>
          match g with
          | String d _ =>
              if is_continuation d then String c g :: gs
              else String c EmptyString :: g :: gs
          | EmptyString => String c EmptyString :: gs
          end
      | nil => String c EmptyString :: nil
      end
  end.

(** Truth value of a string: [bool(s)]. *)
Definition nonempty (s : string) : bool :=
  match s with EmptyString => false | String _ _ => true end.

(** Every byte of [s] is below 128: the ASCII codec accepts [s]. *)
Definition is_ascii (s : string) : bool :=
  forallb (fun c => Nat.ltb (nat_of_ascii c) 128) (list_ascii_of_string s).

End Str.

(** ** The order in which a [dict] enumerates its items

    A Python 2 [dict] enumerates its items in the order of its hash table.
    The embedding does not fix that order: it is any arrangement of the
    items of the dictionary. *)
Class DictOrder := {
  dict_items : ∀ {V : Type}, gmap string V → list (string * V);
  dict_items_perm :
    ∀ (V : Type) (m : gmap string V), dict_items m ≡ₚ map_to_list m
}.

(** ** [urllib.quote_plus] and [urllib.urlencode] *)

Module Urllib.

Definition always_safe : string :=
  "ABCDEFGHIJKLMNOPQRSTUVWXYZabcdefghijklmnopqrstuvwxyz0123456789_.-".

Definition hex_digit (n : nat) : ascii :=
  nth n (list_ascii_of_string "0123456789ABCDEF") "0"%char.

(** ['%{:02X}'.format(ord(c))]. *)
Definition percent (c : ascii) : string :=
  let n := nat_of_ascii c in
  String "%" (String (hex_digit (n / 16)) (String (hex_digit (n mod 16)) "")).

Definition quote_char (safe : string) (c : ascii) : string :=
  if Str.contains c (always_safe ++ safe) then String c "" else percent c.

Fixpoint quote (s safe : string) : string :=
  match s with
  | EmptyString => EmptyString
  | String c rest => quote_char safe c ++ quote rest safe
  end.

(** [quote_plus(s)]: spaces become [+], unsafe characters [%XX]. *)
Definition quote_plus (s : string) : string :=
  if Str.contains " " s
  then Str.replace " " "+" (quote s " ")
  else quote s "".

(** One [k=v] item of the query string. *)
Definition encode_item (kv : string * string) : string :=
  quote_plus kv.1 ++ "=" ++ quote_plus kv.2.

(** [urlencode(query)] for a [dict]: the items of the dictionary, in the
    order in which the dictionary enumerates them, joined by [&]. *)
Definition urlencode `{DictOrder} (query : gmap string string) : string :=
  Str.join "&" (map encode_item (dict_items query)).

End Urllib.

(** ** [urlparse.urlparse] and [urlparse.urlunparse] *)

Module Urlparse.

Record ParseResult := mkParseResult {
  scheme : string;
  netloc : string;
  path : string;
  params : string;
  query : string;
  fragment : string
}.

Definition uses_netloc : list string :=
  ["ftp"; "http"; "gopher"; "nntp"; "telnet"; "imap"; "wais"; "file";
   "mms"; "https"; "shttp"; "snews"; "prospero"; "rtsp"; "rtspu"; "rsync";
   ""; "svn"; "svn+ssh"; "sftp"; "nfs"; "git"; "git+ssh"].

Definition uses_params : list string :=
  ["ftp"; "hdl"; "prospero"; "http"; "imap"; "https"; "shttp"; "rtsp";
   "rtspu"; "sip"; "sips"; "mms"; ""; "sftp"; "tel"].

Definition scheme_chars : string :=
  "abcdefghijklmnopqrstuvwxyzABCDEFGHIJKLMNOPQRSTUVWXYZ0123456789+-.".

Definition mem (s : string) (l : list string) : bool :=
  existsb (String.eqb s) l.

Definition all_in (s allowed : string) : bool :=
  forallb (fun c => Str.contains c allowed) (list_ascii_of_string s).

(** [s.split(c, 1)] when [c] occurs in [s]; [(s, "")] otherwise. *)
Definition split_once (c : string) (s : string) : string * string :=
  match String.index 0 c s with
  | Some i => (Str.take i s, Str.drop (S i) s)
  | None => (s, "")
  end.

(** Position of the first of [/], [?], [#] at or after [start]. *)
Definition netloc_end (s : string) (start : nat) : nat :=
  fold_left
    (fun delim c =>
       match String.index start c s with
       | Some w => Nat.min delim w
       | None => delim
       end)
    ["/"; "?"; "#"] (String.length s).

(** [_splitnetloc(url, 2)]. *)
Definition splitnetloc (s : string) : string * string :=
  let delim := netloc_end s 2 in
  (String.substring 2 (delim - 2) s, Str.drop delim s).

(** [urlsplit(url)]: scheme, network location, path, query, fragment.
    The validation of bracketed IPv6 hosts is left out: it only rejects
    inputs, and the client parses its own constant base URL. *)
Definition urlsplit (url : string) : string * string * string * string * string :=
  let '(sch, url1) :=
    match String.index 0 ":" url with
    | Some (S i' as i) =>
        let rest := Str.drop (S i) url in
        if (all_in (Str.take i url) scheme_chars
            && (negb (Str.nonempty rest && all_in rest "0123456789")))%bool
        then (Str.lower (Str.take i url), rest)
        else ("", url)
    | _ => ("", url)
    end in
  let '(loc, url2) :=
    if String.eqb (Str.take 2 url1) "//" then splitnetloc url1 else ("", url1) in
  let '(url3, frag) :=
    if Str.contains "#" url2 then split_once "#" url2 else (url2, "") in
  let '(url4, qry) :=
    if Str.contains "?" url3 then split_once "?" url3 else (url3, "") in
  (sch, loc, url4, qry, frag).

(** Position of the last [/] of [s], if any. *)
Fixpoint rfind_slash (s : string) (i : nat) (last : option nat) : option nat :=
  match s with
  | EmptyString => last
  | String c rest =>
      rfind_slash rest (S i) (if Ascii.eqb c "/" then Some i else last)
  end.

(** [_splitparams(url)]: the first [;] after the last [/]. *)
Definition splitparams (url : string) : string * string :=
  let start := match rfind_slash url 0 None with Some i => i | None => 0%nat end in
  match String.index start ";" url with
  | Some i => (Str.take i url, Str.drop (S i) url)
  | None => (url, "")
  end.

Definition urlparse (url : string) : ParseResult :=
  let '(sch, loc, p, qry, frag) := urlsplit url in
  let '(p', prm) :=
    if (mem sch uses_params && Str.contains ";" p)%bool
    then splitparams p else (p, "") in
  mkParseResult sch loc p' prm qry frag.

Definition urlunsplit (sch loc url qry frag : string) : string :=
  let url :=
    if (Str.nonempty loc
        || (Str.nonempty sch && mem sch uses_netloc
            && negb (String.eqb (Str.take 2 url) "//")))%bool
    then
      let url :=
        if (Str.nonempty url && negb (String.eqb (Str.take 1 url) "/"))%bool
        then "/" ++ url else url in
      "//" ++ loc ++ url
    else url in
  let url := if Str.nonempty sch then sch ++ ":" ++ url else url in
  let url := if Str.nonempty qry then url ++ "?" ++ qry else url in
  let url := if Str.nonempty frag then url ++ "#" ++ frag else url in
  url.

Definition urlunparse (r : ParseResult) : string :=
  let url :=
    if Str.nonempty (params r) then path r ++ ";" ++ params r else path r in
  urlunsplit (scheme r) (netloc r) url (query r) (fragment r).

End Urlparse.

(** ** Python values, exceptions and the error monad *)

(** Python objects the client handles: decoded JSON ([None], booleans,
    integers, floats by their IEEE-754 bit pattern, text, lists, dicts) and
    the [OrderedDict] records it builds, kept in insertion order.  The text
    of a decoded response is [unicode]; it is held by its UTF-8 bytes. *)
Inductive value :=
| VNone
| VBool (b : bool)
| VInt (z : Z)
| VFloat (bits : Z)
| VStr (s : string)
| VList (l : list value)
| VDict (d : gmap string value)
| VODict (o : list (string * value)).

Inductive exn :=
| Exception (msg : string)
| NotImplementedError (msg : string)
| KeyError (key : string)
| TypeError
| AttributeError
| ValueError
| UnicodeEncodeError
| UnicodeDecodeError
| LibraryError (what : string).

Inductive result (A : Type) :=
| Ok (a : A)
| Raise (e : exn).
Arguments Ok {A} a.
Arguments Raise {A} e.

#[global] Instance result_ret : MRet result := fun A a => Ok a.
#[global] Instance result_bind : MBind result := fun A B f r =>
  match r with Ok a => f a | Raise e => Raise e end.
#[global] Instance result_fmap : FMap result := fun A B f r =>
  match r with Ok a => Ok (f a) | Raise e => Raise e end.

(** [bool(v)], the truth value tested by [if v] and [v or w]. *)
Definition truthy (v : value) : bool :=
  match v with
  | VNone => false
  | VBool b => b
  | VInt z => negb (z =? 0)
  | VFloat bits => negb ((bits =? 0) || (bits =? 2 ^ 63))%bool
  | VStr s => Str.nonempty s
  | VList l => match l with [] => false | _ => true end
  | VDict d => negb (bool_decide (d = ∅))
  | VODict o => match o with [] => false | _ => true end
  end.

(** [a or b]. *)
Definition py_or (a b : value) : value := if truthy a then a else b.

(** Lookup in an [OrderedDict]. *)
Fixpoint odict_get (o : list (string * value)) (key : string) : option value :=
  match o with
  | [] => None
  | (k, v) :: rest => if String.eqb k key then Some v else odict_get rest key
  end.

(** [o[key] = v] on an [OrderedDict]: a known key keeps its place, a new
    key goes last. *)
Fixpoint odict_set (o : list (string * value)) (key : string) (v : value)
  : list (string * value) :=
  match o with
  | [] => [(key, v)]
  | (k, w) :: rest =>
      if String.eqb k key then (k, v) :: rest else (k, w) :: odict_set rest key v
  end.

(** [v[key]] for a text key. *)
Definition subscript (v : value) (key : string) : result value :=
  match v with
  | VDict d =>
      match d !! key with Some x => Ok x | None => Raise (KeyError key) end
  | VODict o =>
      match odict_get o key with Some x => Ok x | None => Raise (KeyError key) end
  | _ => Raise TypeError
  end.

(** The elements [for x in v] runs through. *)
Definition py_iter `{DictOrder} (v : value) : result (list value) :=
  match v with
  | VList l => Ok l
  | VDict d => Ok (map (fun kv => VStr kv.1) (dict_items d))
  | VODict o => Ok (map (fun kv => VStr kv.1) o)
  | VStr s => Ok (map VStr (Str.chars s))
  | _ => Raise TypeError
  end.

(** [v.keys()]. *)
Definition dict_keys `{DictOrder} (v : value) : result value :=
  match v with
  | VDict d => Ok (VList (map (fun kv => VStr kv.1) (dict_items d)))
  | VODict o => Ok (VList (map (fun kv => VStr kv.1) o))
  | _ => Raise AttributeError
  end.

Definition as_str (v : value) : result string :=
  match v with VStr s => Ok s | _ => Raise TypeError end.

(** [sep.join(v)]: every element of [v] must be text. *)
Definition py_join `{DictOrder} (sep : string) (v : value) : result value :=
  items ← py_iter v;
  parts ← mapM as_str items;
  mret (VStr (Str.join sep parts)).

(** ** Library functions kept abstract

    [dateutil], the local time zone, [strftime] and the printers of [json]
    and [repr] are not part of the client; the embedding takes them as an
    interface. *)
Class PyLib := {
  (** the enumeration order of dictionaries *)
  py_dict_order :: DictOrder;
  datetime : Type;
  (** [dateutil.parser.parse(v)] *)
  dp_parse : value → result datetime;
  (** [dt.astimezone(tz.tzlocal())] *)
  astimezone_tzlocal : datetime → result datetime;
  (** [dt.strftime(fmt)] *)
  strftime : datetime → string → result string;
  (** [json.dumps(v, indent=n)] *)
  json_dumps : value → Z → string;
  (** [repr(v)] for floats and containers *)
  py_repr : value → string
}.

(** The text a replacement field [{}] of [str.format] renders for an
    argument it accepts: text as it is, integers in decimal, [None] and
    booleans by name. *)
Definition format_field `{PyLib} (v : value) : string :=
  match v with
  | VStr s => s
  | VInt z => pretty z
  | VNone => "None"
  | VBool true => "True"
  | VBool false => "False"
  | _ => py_repr v
  end.

(** Whether a byte-string template accepts [v]: the text of a decoded
    response is [unicode], which [str.format] encodes with the ASCII
    codec; every other argument is rendered by [str]. *)
Definition ascii_encodable (v : value) : bool :=
  match v with VStr s => Str.is_ascii s | _ => true end.

(** One argument of ['...{}...'.format(v)] with a byte-string template:
    the rendered text, or [UnicodeEncodeError] for text that is not
    ASCII. *)
Definition format_arg `{PyLib} (v : value) : result string :=
  if ascii_encodable v then Ok (format_field v) else Raise UnicodeEncodeError.

(** [u"<prefix>{}".format(arg)] for a byte string [arg]: the unicode
    template decodes [arg] with the ASCII codec. *)
Definition u_format (prefix arg : string) : result string :=
  if Str.is_ascii arg then Ok (prefix ++ arg) else Raise UnicodeDecodeError.

(** ** The transport double *)

Inductive Verb := GET | POST | DELETE.

Record Request := mkRequest {
  verb : Verb;
  url : string;
  headers : gmap string string;
  data : option value
}.

(** A response: its status code and what [r.json()] gives. *)
Record Response := mkResponse {
  status_code : Z;
  json : result value
}.

(** The double answers each request by [respond] and records it in
    [calls], oldest first. *)
Record Transport := mkTransport {
  respond : Request → Response;
  calls : list Request
}.

(** Computations that may raise and may use the transport. *)
Definition M (A : Type) : Type := Transport → result A * Transport.

#[global] Instance M_ret : MRet M := fun A a t => (Ok a, t).
#[global] Instance M_bind : MBind M := fun A B f m t =>
  match m t with
  | (Ok a, t') => f a t'
  | (Raise e, t') => (Raise e, t')
  end.

Definition raise {A} (e : exn) : M A := fun t => (Raise e, t).
Definition lift {A} (r : result A) : M A := fun t => (r, t).

Definition send (req : Request) : M Response := fun t =>
  (Ok (respond t req), mkTransport (respond t) (calls t ++ [req])).

(** [requests.get(url, headers=h)] *)
Definition requests_get (u : string) (h : gmap string string) : M Response :=
  send (mkRequest GET u h None).

(** [requests.post(url, headers=h, data=d)] *)
Definition requests_post (u : string) (h : gmap string string)
    (d : option value) : M Response :=
  send (mkRequest POST u h d).

(** [requests.delete(url, headers=h)] *)
Definition requests_delete (u : string) (h : gmap string string) : M Response :=
  send (mkRequest DELETE u h None).

(** ** The client object *)

(** [CircleAPI]: the token and the base URL set by [__init__]. *)
Record CircleAPI := mkCircleAPI {
  _token : string;
  _base_url : string
}.

(** [CircleAPI.__init__(self, token)]. *)
Definition __init__ (token : string) : CircleAPI :=
  {| _token := token; _base_url := "https://circleci.com/api/v1" |}.

(** [d.update(other)]: the entries of [other] replace those of [d]. *)
Definition dict_update {V} (d other : gmap string V) : gmap string V :=
  other ∪ d.

(** The dictionary [new_params] of [_build_url] after its [update]. *)
Definition new_params (self : CircleAPI) (params : gmap string string)
  : gmap string string :=
  dict_update {[ "circle-token" := _token self ]} params.

(** [CircleAPI._build_url(self, endpoint, params)]. *)
Definition _build_url `{DictOrder} (self : CircleAPI) (endpoint : string)
    (params : gmap string string) : string :=
  let new_params := new_params self params in
  let parsed_url := Urlparse.urlparse (_base_url self) in
  let new_parse :=
    Urlparse.mkParseResult
      (Urlparse.scheme parsed_url) (Urlparse.netloc parsed_url)
      (Str.join "/" [Urlparse.path parsed_url; endpoint])
      "" (Urllib.urlencode new_params) "" in
  Urlparse.urlunparse new_parse.

(** [CircleAPI._get(self, endpoint, params, headers)]. *)
Definition _get `{DictOrder} (self : CircleAPI) (endpoint : string)
    (params headers : gmap string string) : M value :=
  let url := _build_url self endpoint params in
  let new_headers :=
    dict_update
      {[ "Content-Type" := "application/json"; "Accept" := "application/json" ]}
      headers in
  r ← requests_get url new_headers;
  if 400 <=? status_code r
  then msg ← lift (u_format "Error sending GET request to " url);
       raise (Exception msg)
  else lift (json r).

(** [CircleAPI._post(self, endpoint, data, headers)]. *)
Definition _post `{DictOrder} (self : CircleAPI) (endpoint : string)
    (data : option value) (headers : gmap string string) : M value :=
  let url := _build_url self endpoint ∅ in
  let new_headers :=
    dict_update
      {[ "Content-Type" := "application/json"; "Accept" := "application/json" ]}
      headers in
  r ← requests_post url new_headers data;
  if 400 <=? status_code r
  then msg ← lift (u_format "Error sending POST request to " url);
       raise (Exception msg)
  else lift (json r).

(** [CircleAPI._delete(self, endpoint, headers)].  The request is sent with
    [headers], the argument, as the source has it; [new_headers] is built
    and not used. *)
Definition _delete `{DictOrder} (self : CircleAPI) (endpoint : string)
    (headers : gmap string string) : M value :=
  let url := _build_url self endpoint ∅ in
  let new_headers :=
    dict_update
      {[ "Content-Type" := "application/json"; "Accept" := "application/json" ]}
      headers in
  r ← requests_delete url headers;
  if 400 <=? status_code r
  then msg ← lift (u_format "Error sending DELETE request to " url);
       raise (Exception msg)
  else lift (json r).

Section Operations.

Context `{L : PyLib}.

(** [CircleAPI.me(self, verbose)]. *)
Definition me (self : CircleAPI) (verbose : bool) : M value :=
  r_json ← _get self "me" ∅ ∅;
  if verbose then mret (VStr (json_dumps r_json 2))
  else lift (
    let resp := [] in
    v ← subscript r_json "name";
    let resp := odict_set resp "Name" v in
    v ← subscript r_json "all_emails";
    v ← py_join ", " v;
    let resp := odict_set resp "Emails" v in
    v ← subscript r_json "sign_in_count";
    let resp := odict_set resp "Sign-In Count" v in
    v ← subscript r_json "heroku_api_key";
    let resp := odict_set resp "Heroku API Key" v in
    v ← subscript r_json "containers";
    let resp := odict_set resp "Containers" v in
    v ← subscript r_json "parallelism";
    let resp := odict_set resp "Parallelism" v in
    v ← subscript r_json "login";
    let resp := odict_set resp "Username" v in
    v ← subscript r_json "admin";
    let resp := odict_set resp "Admin" v in
    v ← subscript r_json "projects";
    v ← dict_keys v;
    v ← py_join ", " v;
    let resp := odict_set resp "Projects" v in
    mret (VODict resp)).

(** The element ['{}/{}'.format(j['username'], j['reponame'])] of the
    list comprehension of [projects]. *)
Definition projects_item (j : value) : result value :=
  u ← subscript j "username";
  r ← subscript j "reponame";
  su ← format_arg u;
  sr ← format_arg r;
  mret (VStr (su ++ "/" ++ sr)).

(** [CircleAPI.projects(self, verbose)]. *)
Definition projects (self : CircleAPI) (verbose : bool) : M value :=
  r_json ← _get self "projects" ∅ ∅;
  if verbose then mret (VStr (json_dumps r_json 2))
  else lift (
    js ← py_iter r_json;
    resp ← mapM projects_item js;
    mret (VList resp)).

(** The body of the [for] loop of [project_builds], up to the record [o]
    it inserts. *)
Definition project_builds_body (build : value) : result value :=
  let o := [] in
  v ← subscript build "build_num";
  let o := odict_set o "Build# " v in
  e ← subscript build "author_email";
  v ← (if truthy e
       then n ← subscript build "author_name";
            e' ← subscript build "author_email";
            sn ← format_arg n;
            se ← format_arg e';
            mret (VStr (sn ++ " <" ++ se ++ ">"))
       else subscript build "author_email");
  let o := odict_set o "Author " v in
  t ← subscript build "vcs_tag";
  o ← (if truthy t
       then v ← subscript build "vcs_tag";
            mret (odict_set o "Tag    " v)
       else b ← subscript build "branch";
            mret (odict_set o "Branch " (py_or b (VStr "Unknown"))));
  q ← subscript build "queued_at";
  dt ← dp_parse q;
  dt ← astimezone_tzlocal dt;
  v ← strftime dt "%a, %b %d, %Y %I:%M%p %Z";
  let o := odict_set o "Queued " (VStr v) in
  v ← subscript build "why";
  let o := odict_set o "Trigger" v in
  v ← subscript build "build_url";
  let o := odict_set o "URL    " v in
  v ← subscript build "outcome";
  let o := odict_set o "Result " v in
  mret (VODict o).

(** The [for] loop of [project_builds]: each record is put in front of
    [resp] ([resp.insert(0, o)]); the first exception ends the loop. *)
Fixpoint project_builds_loop (builds : list value) (resp : list value)
  : result (list value) :=
  match builds with
  | [] => Ok resp
  | build :: rest =>
      o ← project_builds_body build;
      project_builds_loop rest (o :: resp)
  end.

(** [CircleAPI.project_builds(self, username, project, verbose)]. *)
Definition project_builds (self : CircleAPI) (username project : string)
    (verbose : bool) : M value :=
  r_json ← _get self ("project/" ++ username ++ "/" ++ project) ∅ ∅;
  if verbose then mret (VStr (json_dumps r_json 2))
  else lift (
    builds ← py_iter r_json;
    resp ← project_builds_loop builds [];
    mret (VList resp)).

(** The body of the [for] loop of [recent_builds]. *)
Definition recent_builds_body (build : value) : result value :=
  let o := [] in
  v ← subscript build "build_num";
  let o := odict_set o "Build# " v in
  e ← subscript build "author_email";
  v ← (if truthy e
       then n ← subscript build "author_name";
            e' ← subscript build "author_email";
            sn ← format_arg n;
            se ← format_arg e';
            mret (VStr (sn ++ " <" ++ se ++ ">"))
       else subscript build "author_email");
  let o := odict_set o "Author " v in
  t ← subscript build "vcs_tag";
  o ← (if truthy t
       then v ← subscript build "vcs_tag";
            mret (odict_set o "Tag    " v)
       else b ← subscript build "branch";
            mret (odict_set o "Branch " (py_or b (VStr "Unknown"))));
  q ← subscript build "queued_at";
  dt ← dp_parse q;
  dt ← astimezone_tzlocal dt;
  v ← strftime dt "%a, %b %d, %Y %I:%M%p %Z";
  let o := odict_set o "Queued " (VStr v) in
  v ← subscript build "why";
  let o := odict_set o "Trigger" v in
  v ← subscript build "build_url";
  let o := odict_set o "URL    " v in
  v ← subscript build "outcome";
  let o := odict_set o "Result " v in
  mret (VODict o).

(** The [for] loop of [recent_builds]. *)
Fixpoint recent_builds_loop (builds : list value) (resp : list value)
  : result (list value) :=
  match builds with
  | [] => Ok resp
  | build :: rest =>
      o ← recent_builds_body build;
      recent_builds_loop rest (o :: resp)
  end.

(** [CircleAPI.recent_builds(self, verbose)]. *)
Definition recent_builds (self : CircleAPI) (verbose : bool) : M value :=
  r_json ← _get self "recent-builds" ∅ ∅;
  if verbose then mret (VStr (json_dumps r_json 2))
  else lift (
    builds ← py_iter r_json;
    resp ← recent_builds_loop builds [];
    mret (VList resp)).

End Operations.

(** [CircleAPI.build_details(self, username, project, build_num)]. *)
Definition build_details `{DictOrder} (self : CircleAPI) (username project : string)
    (build_num : Z) : M value :=
  _get self ("project/" ++ username ++ "/" ++ project ++ "/" ++ pretty build_num)
    ∅ ∅.

(** [CircleAPI.artifacts(self, username, project, build_num)]. *)
Definition artifacts `{DictOrder} (self : CircleAPI) (username project : string)
    (build_num : Z) : M value :=
  _get self
    ("project/" ++ username ++ "/" ++ project ++ "/" ++ pretty build_num
     ++ "/artifacts") ∅ ∅.

(** [CircleAPI.retry_build(self, username, project, build_num)]. *)
Definition retry_build `{DictOrder} (self : CircleAPI) (username project : string)
    (build_num : Z) : M value :=
  _post self
    ("project/" ++ username ++ "/" ++ project ++ "/" ++ pretty build_num
     ++ "/retry") None ∅.

(** [CircleAPI.cancel_build(self, username, project, build_num)]. *)
Definition cancel_build `{DictOrder} (self : CircleAPI) (username project : string)
    (build_num : Z) : M value :=
  _post self
    ("project/" ++ username ++ "/" ++ project ++ "/" ++ pretty build_num
     ++ "/cancel") None ∅.

(** [CircleAPI.ssh_users(self, username, project, build_num)]. *)
Definition ssh_users (self : CircleAPI) (username project : string)
    (build_num : Z) : M value :=
  raise (NotImplementedError "This method has not yet been implemented.").

(** [CircleAPI.new_build(self, username, project, branch)]. *)
Definition new_build (self : CircleAPI) (username project branch : string)
  : M value :=
  raise (NotImplementedError "This method has not yet been implemented.").

(** [CircleAPI.create_ssh(self, username, project)]. *)
Definition create_ssh (self : CircleAPI) (username project : string) : M value :=
  raise (NotImplementedError "This method has not yet been implemented.").

(** [CircleAPI.list_checkout_keys(self, username, project)]. *)
Definition list_checkout_keys `{DictOrder} (self : CircleAPI) (username project : string)
  : M value :=
  _get self ("project/" ++ username ++ "/" ++ project ++ "/checkout-key") ∅ ∅.

(** [CircleAPI.create_checkout_key(self, username, project)]. *)
Definition create_checkout_key (self : CircleAPI) (username project : string)
  : M value :=
  raise (NotImplementedError "This method has not yet been implemented.").

(** [CircleAPI.checkout_key(self, username, project, fingerprint)]. *)
Definition checkout_key `{DictOrder} (self : CircleAPI) (username project fingerprint : string)
  : M value :=
  _get self
    ("project/" ++ username ++ "/" ++ project ++ "/checkout-key/" ++ fingerprint)
    ∅ ∅.

(** [CircleAPI.delete_checkout_key(self, username, project, fingerprint)]. *)
Definition delete_checkout_key `{DictOrder} (self : CircleAPI)
    (username project fingerprint : string) : M value :=
  _delete self
    ("project/" ++ username ++ "/" ++ project ++ "/checkout-key/" ++ fingerprint)
    ∅.

(** [CircleAPI.clear_cache(self, username, project)]. *)
Definition clear_cache `{DictOrder} (self : CircleAPI) (username project : string) : M value :=
  _delete self ("project/" ++ username ++ "/" ++ project ++ "/build-cache") ∅.

(** [CircleAPI.add_circle_key(self)]. *)
Definition add_circle_key (self : CircleAPI) : M value :=
  raise (NotImplementedError "This method has not yet been implemented.").

(** [CircleAPI.add_heroku_key(self)]. *)
Definition add_heroku_key (self : CircleAPI) : M value :=
  raise (NotImplementedError "This method has not yet been implemented.").

(** ** The public operations as one call surface *)

(** A call of a public method of [CircleAPI] with its arguments. *)
Inductive Call :=
| CallMe (verbose : bool)
| CallProjects (verbose : bool)
| CallProjectBuilds (username project : string) (verbose : bool)
| CallRecentBuilds (verbose : bool)
| CallBuildDetails (username project : string) (build_num : Z)
| CallArtifacts (username project : string) (build_num : Z)
| CallRetryBuild (username project : string) (build_num : Z)
| CallCancelBuild (username project : string) (build_num : Z)
| CallSshUsers (username project : string) (build_num : Z)
| CallNewBuild (username project branch : string)
| CallCreateSsh (username project : string)
| CallListCheckoutKeys (username project : string)
| CallCreateCheckoutKey (username project : string)
| CallCheckoutKey (username project fingerprint : string)
| CallDeleteCheckoutKey (username project fingerprint : string)
| CallClearCache (username project : string)
| CallAddCircleKey
| CallAddHerokuKey.

(** Method dispatch. *)
Definition invoke `{PyLib} (self : CircleAPI) (c : Call) : M value :=
  match c with
  | CallMe verbose => me self verbose
  | CallProjects verbose => projects self verbose
  | CallProjectBuilds u p verbose => project_builds self u p verbose
  | CallRecentBuilds verbose => recent_builds self verbose
  | CallBuildDetails u p n => build_details self u p n
  | CallArtifacts u p n => artifacts self u p n
  | CallRetryBuild u p n => retry_build self u p n
  | CallCancelBuild u p n => cancel_build self u p n
  | CallSshUsers u p n => ssh_users self u p n
  | CallNewBuild u p b => new_build self u p b
  | CallCreateSsh u p => create_ssh self u p
  | CallListCheckoutKeys u p => list_checkout_keys self u p
  | CallCreateCheckoutKey u p => create_checkout_key self u p
  | CallCheckoutKey u p f => checkout_key self u p f
  | CallDeleteCheckoutKey u p f => delete_checkout_key self u p f
  | CallClearCache u p => clear_cache self u p
  | CallAddCircleKey => add_circle_key self
  | CallAddHerokuKey => add_heroku_key self
  end.

(** The verb and the endpoint of the calls that go to the network, as the
    REST interface of the service lists them. *)
Definition endpoint_of (c : Call) : option (Verb * string) :=
  match c with
  | CallMe _ => Some (GET, "me")
  | CallProjects _ => Some (GET, "projects")
  | CallProjectBuilds u p _ => Some (GET, "project/" ++ u ++ "/" ++ p)
  | CallRecentBuilds _ => Some (GET, "recent-builds")
  | CallBuildDetails u p n =>
      Some (GET, "project/" ++ u ++ "/" ++ p ++ "/" ++ pretty n)
  | CallArtifacts u p n =>
      Some (GET, "project/" ++ u ++ "/" ++ p ++ "/" ++ pretty n ++ "/artifacts")
  | CallRetryBuild u p n =>
      Some (POST, "project/" ++ u ++ "/" ++ p ++ "/" ++ pretty n ++ "/retry")
  | CallCancelBuild u p n =>
      Some (POST, "project/" ++ u ++ "/" ++ p ++ "/" ++ pretty n ++ "/cancel")
  | CallListCheckoutKeys u p =>
      Some (GET, "project/" ++ u ++ "/" ++ p ++ "/checkout-key")
  | CallCheckoutKey u p f =>
      Some (GET, "project/" ++ u ++ "/" ++ p ++ "/checkout-key/" ++ f)
  | CallDeleteCheckoutKey u p f =>
      Some (DELETE, "project/" ++ u ++ "/" ++ p ++ "/checkout-key/" ++ f)
  | CallClearCache u p =>
      Some (DELETE, "project/" ++ u ++ "/" ++ p ++ "/build-cache")
  | _ => None
  end.

(** The default header set of the three verbs. *)
Definition default_headers : gmap string string :=
  {[ "Content-Type" := "application/json"; "Accept" := "application/json" ]}.

Definition verb_name (v : Verb) : string :=
  match v with GET => "GET" | POST => "POST" | DELETE => "DELETE" end.

(** The request a call is observed to put on the wire: GET and POST carry
    the default headers, DELETE carries none. *)
Definition issued `{DictOrder} (self : CircleAPI) (c : Call) : option Request :=
  match endpoint_of c with
  | Some (v, e) =>
      Some (mkRequest v (_build_url self e ∅)
              (match v with DELETE => ∅ | _ => default_headers end) None)
  | None => None
  end.

(** What a verb makes of the answer [r] to its request for [u]: on a
    status of 400 or more the exception with the message for [u], or
    [UnicodeDecodeError] when [u] is not ASCII and the message cannot be
    built; the decoded body otherwise. *)
Definition verb_outcome (v : Verb) (u : string) (r : Response) : result value :=
  if 400 <=? status_code r
  then if Str.is_ascii u
       then Raise (Exception ("Error sending " ++ verb_name v
                              ++ " request to " ++ u))
       else Raise UnicodeDecodeError
  else json r.

(** The [verbose] flag of the calls that have one. *)
Definition verbose_of (c : Call) : option bool :=
  match c with
  | CallMe verbose
  | CallProjects verbose
  | CallProjectBuilds _ _ verbose
  | CallRecentBuilds verbose => Some verbose
  | _ => None
  end.

(** The transport after it has answered and recorded [req]. *)
Definition recorded (t : Transport) (req : Request) : Transport :=
  mkTransport (respond t) (calls t ++ [req]).

(** The GET request of [_get] for an endpoint, without caller parameters
    or headers. *)
Definition get_request `{DictOrder} (self : CircleAPI) (endpoint : string)
  : Request :=
  mkRequest GET (_build_url self endpoint ∅) default_headers None.

(** What "the error raised on a failure status carries the status code"
    says of a call: the status code can be read off the exception. *)
Definition error_carries_status_code `{PyLib} (c : Call) : Prop :=
  ∃ status_of : exn → Z,
    ∀ (self : CircleAPI) (t : Transport) (req : Request),
      issued self c = Some req →
      400 ≤ status_code (respond t req) →
      ∃ e, (invoke self c t).1 = Raise e
           ∧ status_of e = status_code (respond t req).

(** ** A small instance of the library interface and sample doubles *)

Module Sample.

(** Dictionaries enumerate their items in the order of the finite map. *)
#[local] Instance order : DictOrder := {|
  dict_items := fun V m => map_to_list m;
  dict_items_perm := fun V m => Permutation_refl (map_to_list m)
|}.

(** Time stamps are kept as text and printed as they are; the JSON
    printer knows the empty list and [null]. *)
#[local] Instance lib : PyLib := {|
  py_dict_order := order;
  datetime := string;
  dp_parse := fun v =>
    match v with VStr s => Ok s | _ => Raise (LibraryError "parse") end;
  astimezone_tzlocal := fun dt => Ok dt;
  strftime := fun dt _ => Ok dt;
  json_dumps := fun v _ =>
    match v with VList [] => "[]" | VNone => "null" | _ => "..." end;
  py_repr := fun _ => "..."
|}.

(** A double that answers every request alike and has recorded nothing. *)
Definition double (status : Z) (body : result value) : Transport :=
  mkTransport (fun _ => mkResponse status body) [].

Definition client : CircleAPI := __init__ "tok".

Definition build1 : value :=
  VDict {[ "build_num" := VInt 1; "author_name" := VStr "Ann";
           "author_email" := VStr "ann@example.org"; "vcs_tag" := VNone;
           "branch" := VStr "main"; "queued_at" := VStr "t1";
           "why" := VStr "github"; "build_url" := VStr "https://ci/1";
           "outcome" := VStr "success" ]}.

Definition build2 : value :=
  VDict {[ "build_num" := VInt 2; "author_name" := VStr "Bob";
           "author_email" := VStr ""; "vcs_tag" := VStr "v1.0";
           "branch" := VNone; "queued_at" := VStr "t2";
           "why" := VStr "api"; "build_url" := VStr "https://ci/2";
           "outcome" := VStr "failed" ]}.

Definition build3 : value :=
  VDict {[ "build_num" := VInt 3; "author_name" := VNone;
           "author_email" := VNone; "vcs_tag" := VNone;
           "branch" := VNone; "queued_at" := VStr "t3";
           "why" := VStr "retry"; "build_url" := VStr "https://ci/3";
           "outcome" := VNone ]}.

Definition summary1 : list (string * value) :=
  [("Build# ", VInt 1); ("Author ", VStr "Ann <ann@example.org>");
   ("Branch ", VStr "main"); ("Queued ", VStr "t1");
   ("Trigger", VStr "github"); ("URL    ", VStr "https://ci/1");
   ("Result ", VStr "success")].

Definition summary2 : list (string * value) :=
  [("Build# ", VInt 2); ("Author ", VStr "");
   ("Tag    ", VStr "v1.0"); ("Queued ", VStr "t2");
   ("Trigger", VStr "api"); ("URL    ", VStr "https://ci/2");
   ("Result ", VStr "failed")].

Definition summary3 : list (string * value) :=
  [("Build# ", VInt 3); ("Author ", VNone);
   ("Branch ", VStr "Unknown"); ("Queued ", VStr "t3");
   ("Trigger", VStr "retry"); ("URL    ", VStr "https://ci/3");
   ("Result ", VNone)].

Definition project_ab : value :=
  VDict {[ "username" := VStr "a"; "reponame" := VStr "b" ]}.

Definition profile : value :=
  VDict {[ "name" := VStr "Ann"; "all_emails" := VList [VStr "a@x.org"; VStr "b@x.org"];
           "sign_in_count" := VInt 12; "heroku_api_key" := VNone;
           "containers" := VInt 1; "parallelism" := VInt 1;
           "login" := VStr "ann"; "admin" := VBool false;
           "projects" := VDict {[ "https://github.com/a/b" := VDict ∅ ]} ]}.



(** A double whose two build endpoints return different lists. *)
Definition two_lists : Transport :=
  mkTransport
    (fun req =>
       if String.eqb (url req)
            "https://circleci.com/api/v1/recent-builds?circle-token=tok"
       then mkResponse 200 (Ok (VList [build2; build3]))
       else mkResponse 200 (Ok (VList [build1; build2])))
    [].

Definition profile2 : value :=
  VDict {[ "name" := VStr "Ann"; "all_emails" := VList [VStr "a@x.org"];
           "sign_in_count" := VInt 12; "heroku_api_key" := VNone;
           "containers" := VInt 1; "parallelism" := VInt 1;
           "login" := VStr "ann"; "admin" := VBool false;
           "projects" := VDict {[ "https://github.com/a/b" := VDict ∅;
                                  "https://github.com/c/d" := VDict ∅ ]} ]}.

(** A profile with an e-mail that is not text. *)
Definition profile_bad : value :=
  VDict {[ "name" := VStr "Ann"; "all_emails" := VList [VStr "a@x.org"; VInt 7];
           "sign_in_count" := VInt 12; "heroku_api_key" := VNone;
           "containers" := VInt 1; "parallelism" := VInt 1;
           "login" := VStr "ann"; "admin" := VBool false;
           "projects" := VDict ∅ ]}.

End Sample.

(** * Properties *)

Example urlparse_base_url :
  Urlparse.urlparse "https://circleci.com/api/v1"
  = Urlparse.mkParseResult "https" "circleci.com" "/api/v1" "" "" "".
Proof. reflexivity. Qed.

Example urlparse_full :
  Urlparse.urlparse "HTTP://host:80/a/b;p?x=1#f"
  = Urlparse.mkParseResult "http" "host:80" "/a/b" "p" "x=1" "f".
Proof. reflexivity. Qed.

Example build_url_me :
  @_build_url Sample.order (__init__ "s3 cr/t") "me" ∅
  = "https://circleci.com/api/v1/me?circle-token=s3+cr%2Ft".
Proof. vm_compute. reflexivity. Qed.

Example build_summaries :
  @project_builds_body Sample.lib Sample.build1 = Ok (VODict Sample.summary1)
  ∧ @project_builds_body Sample.lib Sample.build2 = Ok (VODict Sample.summary2)
  ∧ @project_builds_body Sample.lib Sample.build3 = Ok (VODict Sample.summary3).
Proof. repeat split; vm_compute; reflexivity. Qed.

Example project_builds_two :
  (@project_builds Sample.lib Sample.client "u" "p" false
     (Sample.double 200 (Ok (VList [Sample.build1; Sample.build2])))).1
  = Ok (VList [VODict Sample.summary2; VODict Sample.summary1]).
Proof. vm_compute. reflexivity. Qed.

Example projects_ab :
  (@projects Sample.lib Sample.client false
     (Sample.double 200 (Ok (VList [Sample.project_ab])))).1
  = Ok (VList [VStr "a/b"]).
Proof. vm_compute. reflexivity. Qed.

Example accent_is_two_bytes :
  list_ascii_of_string "é" = [ascii_of_nat 195; ascii_of_nat 169]
  ∧ Str.is_ascii "é" = false
  ∧ Str.chars "José é" = ["J"; "o"; "s"; "é"; " "; "é"].
Proof. repeat split; reflexivity. Qed.

(** ** Building the URL *)

Section BuildUrl.

Context `{O : DictOrder}.

Lemma dict_items_nonempty {V} (m : gmap string V) :
  m ≠ ∅ → dict_items m ≠ [].
Proof.
  intros Hm Hnil. pose proof (dict_items_perm V m) as Hperm.
  rewrite Hnil in Hperm. apply Permutation_nil in Hperm.
  apply map_to_list_empty_iff in Hperm. contradiction.
Qed.

Lemma dict_items_singleton {V} (k : string) (v : V) :
  dict_items ({[ k := v ]} : gmap string V) = [(k, v)].
Proof.
  pose proof (dict_items_perm V {[ k := v ]}) as Hperm.
  rewrite map_to_list_singleton in Hperm.
  apply Permutation_singleton_r in Hperm. exact Hperm.
Qed.

Lemma nonempty_app_r (a b : string) :
  Str.nonempty b = true → Str.nonempty (a ++ b) = true.
Proof. intros Hb. destruct a; [exact Hb | reflexivity]. Qed.

Lemma nonempty_encode_item (kv : string * string) :
  Str.nonempty (Urllib.encode_item kv) = true.
Proof. unfold Urllib.encode_item. apply nonempty_app_r. reflexivity. Qed.

Lemma nonempty_join_cons (sep x : string) (l : list string) :
  Str.nonempty x = true → Str.nonempty (Str.join sep (x :: l)) = true.
Proof.
  intros Hx. unfold Str.join. destruct l as [|y l]; simpl; [exact Hx|].
  destruct x; [discriminate | reflexivity].
Qed.

Lemma new_params_lookup (self : CircleAPI) (params : gmap string string)
    (k : string) :
  new_params self params !! k
  = match params !! k with
    | Some v => Some v
    | None => if decide (k = "circle-token") then Some (_token self) else None
    end.
Proof.
  unfold new_params, dict_update. rewrite lookup_union.
  destruct (params !! k) as [v|] eqn:Hk.
  - destruct ({[ "circle-token" := _token self ]} !! k); reflexivity.
  - rewrite (left_id_L None _). case_decide as Hd.
    + subst k. apply lookup_singleton_eq.
    + apply lookup_singleton_ne. congruence.
Qed.

Lemma new_params_nonempty (self : CircleAPI) (params : gmap string string) :
  new_params self params ≠ ∅.
Proof.
  intros Hempty.
  assert (Hl : new_params self params !! "circle-token" = None)
    by (rewrite Hempty; apply lookup_empty).
  rewrite new_params_lookup in Hl.
  destruct (params !! "circle-token"); [discriminate|].
  case_decide; [discriminate | congruence].
Qed.

Lemma urlencode_nonempty (m : gmap string string) :
  m ≠ ∅ → Str.nonempty (Urllib.urlencode m) = true.
Proof.
  intros Hm. unfold Urllib.urlencode.
  destruct (dict_items m) as [|kv l] eqn:Hl.
  - apply dict_items_nonempty in Hm. contradiction.
  - simpl map. apply nonempty_join_cons, nonempty_encode_item.
Qed.

Lemma urlencode_singleton (k v : string) :
  Urllib.urlencode {[ k := v ]}
  = Urllib.quote_plus k ++ "=" ++ Urllib.quote_plus v.
Proof. unfold Urllib.urlencode. rewrite dict_items_singleton. reflexivity. Qed.

Lemma build_url_unfold (token endpoint : string) (params : gmap string string) :
  _build_url (__init__ token) endpoint params
  = "https://circleci.com/api/v1/" ++ endpoint ++ "?"
    ++ Urllib.urlencode (new_params (__init__ token) params).
Proof.
  unfold _build_url.
  change (Urlparse.urlparse (_base_url (__init__ token)))
    with (Urlparse.mkParseResult "https" "circleci.com" "/api/v1" "" "" "").
  unfold Urlparse.urlunparse, Urlparse.urlunsplit. cbn -[Urllib.urlencode new_params].
  rewrite urlencode_nonempty by apply new_params_nonempty.
  reflexivity.
Qed.

End BuildUrl.

(** C2.  For every endpoint and every caller-supplied [params], the URL is
    the base URL, a slash, the endpoint, and the query string that encodes
    the dictionary [{"circle-token": token}] updated by [params].  In that
    dictionary a key supplied by the caller has the caller's value (also
    the token key), the token key has the configured token when the caller
    gives none, and no other key is present.  With no caller parameters the
    query string is the token entry alone. *)
Theorem build_url_token_and_params `{O : DictOrder} (token endpoint : string)
    (params : gmap string string) :
  let self := __init__ token in
  let merged := new_params self params in
  _build_url self endpoint params
  = Urlparse.scheme (Urlparse.urlparse (_base_url self)) ++ "://"
    ++ Urlparse.netloc (Urlparse.urlparse (_base_url self))
    ++ (Urlparse.path (Urlparse.urlparse (_base_url self)) ++ "/" ++ endpoint)
    ++ "?" ++ Urllib.urlencode merged
  ∧ merged = dict_update {[ "circle-token" := token ]} params
  ∧ (∀ k, merged !! k
          = match params !! k with
            | Some v => Some v
            | None => if decide (k = "circle-token") then Some token else None
            end)
  ∧ _build_url self endpoint ∅
    = "https://circleci.com/api/v1/" ++ endpoint
      ++ "?circle-token=" ++ Urllib.quote_plus token.
Proof.
  intros self merged. split; [|split; [|split]].
  - subst self merged. rewrite build_url_unfold. reflexivity.
  - reflexivity.
  - intros k. apply (new_params_lookup self params k).
  - subst self. rewrite build_url_unfold.
    unfold new_params, dict_update. rewrite (left_id_L ∅ _).
    rewrite urlencode_singleton. reflexivity.
Qed.

(** ** The characters of the query string *)

Section QueryAlphabet.

Context `{O : DictOrder}.

Lemma all_in_app (a b allowed : string) :
  Urlparse.all_in (a ++ b) allowed
  = (Urlparse.all_in a allowed && Urlparse.all_in b allowed)%bool.
Proof.
  unfold Urlparse.all_in. induction a as [|c a IH]; [reflexivity|].
  change (String c a ++ b) with (String c (a ++ b)).
  cbn [list_ascii_of_string forallb]. rewrite IH.
  rewrite andb_assoc. reflexivity.
Qed.

Lemma is_ascii_app (a b : string) :
  Str.is_ascii (a ++ b) = (Str.is_ascii a && Str.is_ascii b)%bool.
Proof.
  unfold Str.is_ascii. induction a as [|c a IH]; [reflexivity|].
  change (String c a ++ b) with (String c (a ++ b)).
  cbn [list_ascii_of_string forallb]. rewrite IH.
  rewrite andb_assoc. reflexivity.
Qed.

Lemma replace_app (x y : ascii) (a b : string) :
  Str.replace x y (a ++ b) = Str.replace x y a ++ Str.replace x y b.
Proof.
  induction a as [|c a IH]; [reflexivity|].
  change (String c a ++ b) with (String c (a ++ b)).
  cbn [Str.replace]. rewrite IH. reflexivity.
Qed.

Lemma quote_char_plain (c : ascii) :
  Urlparse.all_in (Urllib.quote_char "" c) (Urllib.always_safe ++ "%+=&") = true.
Proof. destruct c as [[] [] [] [] [] [] [] []]; vm_compute; reflexivity. Qed.

Lemma quote_char_space (c : ascii) :
  Urlparse.all_in (Str.replace " " "+" (Urllib.quote_char " " c))
    (Urllib.always_safe ++ "%+=&") = true.
Proof. destruct c as [[] [] [] [] [] [] [] []]; vm_compute; reflexivity. Qed.

Lemma quote_plus_alphabet (s : string) :
  Urlparse.all_in (Urllib.quote_plus s) (Urllib.always_safe ++ "%+=&") = true.
Proof.
  unfold Urllib.quote_plus. destruct (Str.contains " " s).
  - induction s as [|c s IH]; [reflexivity|].
    cbn [Urllib.quote]. rewrite replace_app, all_in_app, IH, quote_char_space.
    reflexivity.
  - induction s as [|c s IH]; [reflexivity|].
    cbn [Urllib.quote]. rewrite all_in_app, IH, quote_char_plain.
    reflexivity.
Qed.

Lemma urlencode_alphabet (m : gmap string string) :
  Urlparse.all_in (Urllib.urlencode m) (Urllib.always_safe ++ "%+=&") = true.
Proof.
  unfold Urllib.urlencode, Str.join.
  induction (dict_items m) as [|kv l IH]; [reflexivity|].
  assert (Hitem : Urlparse.all_in (Urllib.encode_item kv)
                    (Urllib.always_safe ++ "%+=&") = true).
  { unfold Urllib.encode_item. rewrite !all_in_app, !quote_plus_alphabet.
    reflexivity. }
  cbn [map String.concat]. destruct (map Urllib.encode_item l) as [|y l'].
  - exact Hitem.
  - rewrite !all_in_app, Hitem, IH. reflexivity.
Qed.

(** The characters of a query string are ASCII. *)
Lemma alphabet_char_is_ascii (c : ascii) :
  Str.contains c (Urllib.always_safe ++ "%+=&") = true →
  Nat.ltb (nat_of_ascii c) 128 = true.
Proof. destruct c as [[] [] [] [] [] [] [] []]; vm_compute; congruence. Qed.

Lemma alphabet_is_ascii (q : string) :
  Urlparse.all_in q (Urllib.always_safe ++ "%+=&") = true →
  Str.is_ascii q = true.
Proof.
  unfold Urlparse.all_in, Str.is_ascii.
  induction q as [|c q IH]; [reflexivity|].
  cbn [list_ascii_of_string forallb]. intros Hq.
  apply andb_prop in Hq as [Hc Hq].
  rewrite (alphabet_char_is_ascii c Hc), (IH Hq). reflexivity.
Qed.

(** The URL is ASCII exactly when the endpoint is: the rest of it is the
    constant base URL and the encoded query string. *)
Lemma build_url_is_ascii (token endpoint : string)
    (params : gmap string string) :
  Str.is_ascii (_build_url (__init__ token) endpoint params)
  = Str.is_ascii endpoint.
Proof.
  rewrite build_url_unfold, !is_ascii_app.
  rewrite (alphabet_is_ascii _ (urlencode_alphabet _)).
  change (Str.is_ascii "https://circleci.com/api/v1/") with true.
  change (Str.is_ascii "?") with true.
  cbn [andb]. rewrite !andb_true_r. reflexivity.
Qed.

(** A character the quoting keeps is not the space. *)
Lemma safe_is_not_space (c : ascii) :
  Str.contains c Urllib.always_safe = true → Ascii.eqb " " c = false.
Proof. destruct c as [[] [] [] [] [] [] [] []]; vm_compute; congruence. Qed.

Lemma quote_char_safe (c : ascii) :
  Str.contains c Urllib.always_safe = true →
  Urllib.quote_char "" c = String c "".
Proof.
  intros Hc. unfold Urllib.quote_char.
  change (Urllib.always_safe ++ "") with Urllib.always_safe.
  rewrite Hc. reflexivity.
Qed.

Lemma quote_plus_safe (s : string) :
  Urlparse.all_in s Urllib.always_safe = true → Urllib.quote_plus s = s.
Proof.
  unfold Urlparse.all_in, Urllib.quote_plus, Str.contains.
  intros Hs.
  assert (Hnospace : existsb (Ascii.eqb " ") (list_ascii_of_string s) = false).
  { induction s as [|c s IH]; [reflexivity|].
    cbn [list_ascii_of_string forallb existsb] in *.
    apply andb_prop in Hs as [Hc Hs].
    rewrite (safe_is_not_space c Hc), (IH Hs). reflexivity. }
  rewrite Hnospace.
  induction s as [|c s IH]; [reflexivity|].
  cbn [list_ascii_of_string forallb existsb] in *.
  apply andb_prop in Hs as [Hc Hs].
  rewrite (safe_is_not_space c Hc) in Hnospace. cbn [orb] in Hnospace.
  cbn [Urllib.quote]. rewrite (quote_char_safe c Hc), (IH Hs Hnospace).
  reflexivity.
Qed.

End QueryAlphabet.

(** ** One request per verb *)

Section Verbs.

Context `{O : DictOrder}.

Lemma _get_run (self : CircleAPI) (endpoint : string)
    (params hdrs : gmap string string) (t : Transport) :
  let req := mkRequest GET (_build_url self endpoint params)
               (dict_update default_headers hdrs) None in
  _get self endpoint params hdrs t
  = (verb_outcome GET (url req) (respond t req), recorded t req).
Proof.
  unfold _get, verb_outcome, recorded, requests_get, send, raise, lift,
    u_format, mbind, M_bind, default_headers.
  cbv beta zeta iota. cbn [status_code url json verb_name].
  destruct (400 <=? _); [|reflexivity].
  destruct (Str.is_ascii _); reflexivity.
Qed.

Lemma _post_run (self : CircleAPI) (endpoint : string) (d : option value)
    (hdrs : gmap string string) (t : Transport) :
  let req := mkRequest POST (_build_url self endpoint ∅)
               (dict_update default_headers hdrs) d in
  _post self endpoint d hdrs t
  = (verb_outcome POST (url req) (respond t req), recorded t req).
Proof.
  unfold _post, verb_outcome, recorded, requests_post, send, raise, lift,
    u_format, mbind, M_bind, default_headers.
  cbv beta zeta iota. cbn [status_code url json verb_name].
  destruct (400 <=? _); [|reflexivity].
  destruct (Str.is_ascii _); reflexivity.
Qed.

Lemma _delete_run (self : CircleAPI) (endpoint : string)
    (hdrs : gmap string string) (t : Transport) :
  let req := mkRequest DELETE (_build_url self endpoint ∅) hdrs None in
  _delete self endpoint hdrs t
  = (verb_outcome DELETE (url req) (respond t req), recorded t req).
Proof.
  unfold _delete, verb_outcome, recorded, requests_delete, send, raise, lift,
    u_format, mbind, M_bind.
  cbv beta zeta iota. cbn [status_code url json verb_name].
  destruct (400 <=? _); [|reflexivity].
  destruct (Str.is_ascii _); reflexivity.
Qed.

Lemma dict_update_empty {V} (d : gmap string V) : dict_update d ∅ = d.
Proof. unfold dict_update. apply (left_id_L ∅ _). Qed.

(** Sequencing after a verb: an exception of the verb ends the method. *)
Lemma bind_run {A B} (m : M A) (k : A → M B) (t t' : Transport) (r : result A) :
  m t = (r, t') →
  (m ≫= k) t = match r with Ok a => k a t' | Raise e => (Raise e, t') end.
Proof. intros Hm. unfold mbind, M_bind. rewrite Hm. reflexivity. Qed.

End Verbs.

(** ** Failure statuses *)

Section Failure.

Context `{L : PyLib}.

(** Every call that goes to the network sends exactly the request
    [issued] describes; when the verb raises, so does the call. *)
Lemma invoke_failure (self : CircleAPI) (c : Call) (req : Request)
    (t : Transport) (e : exn) :
  issued self c = Some req →
  verb_outcome (verb req) (url req) (respond t req) = Raise e →
  invoke self c t = (Raise e, recorded t req).
Proof.
  intros Hreq Hout. unfold issued in Hreq.
  destruct c; cbn [endpoint_of] in Hreq; inversion Hreq as [Hr];
    rewrite <- Hr in Hout; cbn [verb url] in Hout;
    cbn [invoke verb url];
    unfold me, projects, project_builds, recent_builds, build_details,
      artifacts, retry_build, cancel_build, list_checkout_keys,
      checkout_key, delete_checkout_key, clear_cache;
    first
      [ erewrite bind_run by apply _get_run
      | rewrite _get_run | rewrite _post_run | rewrite _delete_run ];
    cbv zeta; cbn [url]; rewrite ?dict_update_empty; rewrite Hout;
    reflexivity.
Qed.

Lemma verb_outcome_failure (v : Verb) (u : string) (r : Response) :
  400 ≤ status_code r →
  verb_outcome v u r
  = Raise (if Str.is_ascii u
           then Exception ("Error sending " ++ verb_name v
                           ++ " request to " ++ u)
           else UnicodeDecodeError).
Proof.
  intros Hs. unfold verb_outcome.
  destruct (400 <=? status_code r) eqn:Hc; [|lia].
  destruct (Str.is_ascii u); reflexivity.
Qed.

End Failure.

(** C1, as the code has it.  For every operation that issues an HTTP
    request (GET, POST or DELETE), a response whose status code is 400 or
    more makes the operation raise; no body is returned, and the request is
    the only one sent.  The exception is the plain [Exception] whose
    message names the verb and the request URL when that URL is ASCII;
    when it is not (an endpoint argument with a byte of 128 or more) the
    message cannot be built and [UnicodeDecodeError] is raised instead.
    For a client made by [__init__] the URL is ASCII exactly when the
    endpoint is.  The exception never holds the status code. *)
Theorem failure_status_raises_with_url `{L : PyLib} (self : CircleAPI)
    (c : Call) (req : Request) (t : Transport) :
  issued self c = Some req →
  400 ≤ status_code (respond t req) →
  invoke self c t
  = (Raise (if Str.is_ascii (url req)
            then Exception ("Error sending " ++ verb_name (verb req)
                            ++ " request to " ++ url req)
            else UnicodeDecodeError),
     recorded t req)
  ∧ ∀ token endpoint,
      self = __init__ token →
      endpoint_of c = Some (verb req, endpoint) →
      Str.is_ascii (url req) = Str.is_ascii endpoint.
Proof.
  intros Hreq Hs. split.
  - apply invoke_failure; [exact Hreq|].
    apply verb_outcome_failure, Hs.
  - intros token endpoint -> Hend. unfold issued in Hreq.
    rewrite Hend in Hreq. injection Hreq as <-. cbn [url].
    apply build_url_is_ascii.
Qed.

Lemma failure_status_raises_with_url_witness :
  @invoke Sample.lib Sample.client (CallClearCache "u" "p")
    (Sample.double 500 (Ok VNone))
  = (Raise (Exception
       "Error sending DELETE request to https://circleci.com/api/v1/project/u/p/build-cache?circle-token=tok"),
     recorded (Sample.double 500 (Ok VNone))
       (mkRequest DELETE
          "https://circleci.com/api/v1/project/u/p/build-cache?circle-token=tok"
          ∅ None))
  ∧ (@invoke Sample.lib Sample.client (CallClearCache "é" "p")
       (Sample.double 500 (Ok VNone))).1
    = Raise UnicodeDecodeError.
Proof.
  split.
  - destruct (@failure_status_raises_with_url Sample.lib Sample.client
                (CallClearCache "u" "p")
                (mkRequest DELETE
                   "https://circleci.com/api/v1/project/u/p/build-cache?circle-token=tok"
                   ∅ None)
                (Sample.double 500 (Ok VNone))) as [Hrun _].
    + vm_compute. reflexivity.
    + simpl. lia.
    + rewrite Hrun. reflexivity.
  - destruct (@failure_status_raises_with_url Sample.lib Sample.client
                (CallClearCache "é" "p")
                (mkRequest DELETE
                   "https://circleci.com/api/v1/project/é/p/build-cache?circle-token=tok"
                   ∅ None)
                (Sample.double 500 (Ok VNone))) as [Hrun _].
    + vm_compute. reflexivity.
    + simpl. lia.
    + rewrite Hrun. reflexivity.
Defined.

(** C1, as stated, fails: the exception raised by [me] for a status of 404
    and for a status of 500 is the same value, so no status code can be
    read off it. *)
Lemma error_does_not_carry_status_code :
  ¬ @error_carries_status_code Sample.lib (CallMe false).
Proof.
  intros [status_of Hcarry].
  pose (req := @get_request Sample.order Sample.client "me").
  destruct (Hcarry Sample.client (Sample.double 404 (Ok VNone)) req)
    as (e1 & He1 & Hs1); [reflexivity | simpl; lia |].
  destruct (Hcarry Sample.client (Sample.double 500 (Ok VNone)) req)
    as (e2 & He2 & Hs2); [reflexivity | simpl; lia |].
  assert (Hsame : e1 = e2).
  { vm_compute in He1. vm_compute in He2. congruence. }
  subst e2. simpl in Hs1, Hs2. lia.
Qed.

(** ** Operations that are not implemented *)

(** C3.  The unimplemented operations ([ssh_users], [new_build],
    [create_ssh], [create_checkout_key], [add_circle_key],
    [add_heroku_key]) raise [NotImplementedError] whatever their arguments
    and whatever the transport, and leave the transport as it was: no
    request is answered or recorded. *)
Theorem unimplemented_raise_without_io (self : CircleAPI)
    (username project branch : string) (build_num : Z) (t : Transport) :
  let err : result value :=
    Raise (NotImplementedError "This method has not yet been implemented.") in
  ssh_users self username project build_num t = (err, t)
  ∧ new_build self username project branch t = (err, t)
  ∧ create_ssh self username project t = (err, t)
  ∧ create_checkout_key self username project t = (err, t)
  ∧ add_circle_key self t = (err, t)
  ∧ add_heroku_key self t = (err, t)
  ∧ calls (ssh_users self username project build_num t).2 = calls t
  ∧ calls (new_build self username project branch t).2 = calls t
  ∧ calls (create_ssh self username project t).2 = calls t
  ∧ calls (create_checkout_key self username project t).2 = calls t
  ∧ calls (add_circle_key self t).2 = calls t
  ∧ calls (add_heroku_key self t).2 = calls t.
Proof. intros err. repeat split. Qed.

(** On a fresh double the unimplemented calls leave zero recorded calls,
    and every other call leaves exactly one. *)
Lemma invoke_calls `{L : PyLib} (self : CircleAPI) (c : Call) (t : Transport) :
  calls (invoke self c t).2
  = (calls t ++ match issued self c with Some req => [req] | None => [] end)%list.
Proof.
  unfold issued.
  destruct c; cbn [endpoint_of invoke];
    try (symmetry; apply app_nil_r);
    unfold me, projects, project_builds, recent_builds, build_details,
      artifacts, retry_build, cancel_build, list_checkout_keys,
      checkout_key, delete_checkout_key, clear_cache;
    first
      [ erewrite bind_run by apply _get_run
      | rewrite _get_run | rewrite _post_run | rewrite _delete_run ];
    cbv zeta; rewrite ?dict_update_empty;
    try reflexivity;
    destruct (verb_outcome _ _ _); try reflexivity;
    destruct verbose; reflexivity.
Qed.

(** ** Verbose mode *)

(** C5, as the code has it.  With [verbose] set, [me], [projects],
    [project_builds] and [recent_builds] return text: the decoded JSON
    response printed again by [json.dumps(r_json, indent=2)], with no field
    selected or reshaped.  They do not return the decoded object. *)
Theorem verbose_returns_json_text `{L : PyLib} (self : CircleAPI) (c : Call)
    (req : Request) (t : Transport) :
  verbose_of c = Some true →
  issued self c = Some req →
  status_code (respond t req) < 400 →
  invoke self c t
  = ((λ r_json, VStr (json_dumps r_json 2)) <$> json (respond t req),
     recorded t req).
Proof.
  intros Hv Hreq Hs. unfold issued in Hreq.
  destruct c; cbn [verbose_of] in Hv; try discriminate Hv;
    injection Hv as ->; cbn [endpoint_of] in Hreq;
    injection Hreq as <-; cbn [invoke];
    unfold me, projects, project_builds, recent_builds;
    erewrite bind_run by apply _get_run;
    cbv zeta; rewrite dict_update_empty;
    unfold verb_outcome; cbn [url];
    (destruct (400 <=? _) eqn:Hc; [lia|]);
    destruct (json _); reflexivity.
Qed.

Lemma verbose_returns_json_text_witness :
  @invoke Sample.lib Sample.client (CallProjects true)
    (Sample.double 200 (Ok (VList [])))
  = (Ok (VStr "[]"),
     recorded (Sample.double 200 (Ok (VList [])))
       (@get_request Sample.order Sample.client "projects")).
Proof.
  apply (@verbose_returns_json_text Sample.lib Sample.client
           (CallProjects true) (@get_request Sample.order Sample.client "projects")
           (Sample.double 200 (Ok (VList [])))).
  - reflexivity.
  - reflexivity.
  - simpl. lia.
Defined.

(** C5, as stated, fails: for the decoded response [[]] the verbose result
    of [projects] is not that response. *)
Lemma verbose_result_is_not_the_decoded_json :
  (@projects Sample.lib Sample.client true
     (Sample.double 200 (Ok (VList [])))).1
  ≠ json (respond (Sample.double 200 (Ok (VList [])))
            (@get_request Sample.order Sample.client "projects")).
Proof. vm_compute. discriminate. Qed.

(** ** Headers *)

Lemma merged_headers_lookup (hdrs : gmap string string) (k : string) :
  dict_update default_headers hdrs !! k
  = match hdrs !! k with Some v => Some v | None => default_headers !! k end.
Proof.
  unfold dict_update. rewrite lookup_union.
  destruct (hdrs !! k), (default_headers !! k); reflexivity.
Qed.

(** GET sends the default set updated by the caller's headers. *)
Lemma _get_headers `{O : DictOrder} (self : CircleAPI) (endpoint : string)
    (params hdrs : gmap string string) (t : Transport) :
  calls (_get self endpoint params hdrs t).2
  = (calls t ++ [mkRequest GET (_build_url self endpoint params)
                  (dict_update default_headers hdrs) None])%list.
Proof. rewrite _get_run. reflexivity. Qed.

(** POST sends the default set updated by the caller's headers. *)
Lemma _post_headers `{O : DictOrder} (self : CircleAPI) (endpoint : string)
    (d : option value)
    (hdrs : gmap string string) (t : Transport) :
  calls (_post self endpoint d hdrs t).2
  = (calls t ++ [mkRequest POST (_build_url self endpoint ∅)
                  (dict_update default_headers hdrs) d])%list.
Proof. rewrite _post_run. reflexivity. Qed.

(** DELETE sends the caller's headers alone. *)
Lemma _delete_headers `{O : DictOrder} (self : CircleAPI) (endpoint : string)
    (hdrs : gmap string string) (t : Transport) :
  calls (_delete self endpoint hdrs t).2
  = (calls t ++ [mkRequest DELETE (_build_url self endpoint ∅) hdrs None])%list.
Proof. rewrite _delete_run. reflexivity. Qed.

(** C6 at [clear_cache]: the DELETE request goes out with no header at
    all, where the default set updated by the (empty) caller headers has
    [Content-Type] and [Accept]. *)
Theorem clear_cache_sends_no_default_headers :
  calls (@clear_cache Sample.order Sample.client "u" "p"
           (Sample.double 200 (Ok VNone))).2
  = [mkRequest DELETE
       "https://circleci.com/api/v1/project/u/p/build-cache?circle-token=tok"
       ∅ None]
  ∧ (∅ : gmap string string) !! "Accept" = None
  ∧ dict_update default_headers ∅ !! "Accept" = Some "application/json"
  ∧ dict_update default_headers ∅ !! "Content-Type" = Some "application/json".
Proof. repeat split; vm_compute; reflexivity. Qed.


(** ** Build summaries *)

Section Builds.

Context `{L : PyLib}.

(** The two methods reshape a record by the same steps. *)
Lemma bodies_agree (build : value) :
  project_builds_body build = recent_builds_body build.
Proof. reflexivity. Qed.

Lemma loops_agree (builds resp : list value) :
  project_builds_loop builds resp = recent_builds_loop builds resp.
Proof.
  revert resp. induction builds as [|build rest IH]; intros resp.
  - reflexivity.
  - cbn [project_builds_loop recent_builds_loop].
    rewrite bodies_agree. destruct (recent_builds_body build); [|reflexivity].
    apply IH.
Qed.

(** Inserting at the front reverses: the loop started on [resp] gives the
    summaries of [builds], last one first, followed by [resp]. *)
Lemma project_builds_loop_rev (builds resp : list value) :
  project_builds_loop builds resp
  = (λ l, rev l ++ resp)%list <$> mapM project_builds_body builds.
Proof.
  revert resp. induction builds as [|build rest IH]; intros resp.
  - reflexivity.
  - cbn [project_builds_loop mapM].
    destruct (project_builds_body build) as [o|e]; [|reflexivity].
    cbn. rewrite IH.
    destruct (mapM project_builds_body rest) as [k|e]; [|reflexivity].
    cbn. rewrite <- app_assoc. reflexivity.
Qed.

Lemma recent_builds_loop_rev (builds resp : list value) :
  recent_builds_loop builds resp
  = (λ l, rev l ++ resp)%list <$> mapM recent_builds_body builds.
Proof.
  rewrite <- loops_agree, project_builds_loop_rev. reflexivity.
Qed.

(** A GET that is answered with a status below 400 gives what [r.json()]
    gives. *)
Lemma _get_success (self : CircleAPI) (endpoint : string) (t : Transport) :
  status_code (respond t (get_request self endpoint)) < 400 →
  _get self endpoint ∅ ∅ t
  = (json (respond t (get_request self endpoint)),
     recorded t (get_request self endpoint)).
Proof.
  intros Hs. rewrite _get_run. cbv zeta. rewrite dict_update_empty.
  unfold verb_outcome. fold (get_request self endpoint).
  destruct (400 <=? _) eqn:Hc; [lia | reflexivity].
Qed.

Lemma project_builds_run (self : CircleAPI) (username project : string)
    (t : Transport) (raw : list value) :
  let req := get_request self ("project/" ++ username ++ "/" ++ project) in
  status_code (respond t req) < 400 →
  json (respond t req) = Ok (VList raw) →
  project_builds self username project false t
  = (VList <$> project_builds_loop raw [], recorded t req).
Proof.
  intros req Hs Hj. unfold project_builds.
  erewrite bind_run by (apply _get_success; exact Hs).
  fold req. rewrite Hj. unfold lift. cbn [py_iter]. cbn.
  destruct (project_builds_loop raw []); reflexivity.
Qed.

Lemma recent_builds_run (self : CircleAPI) (t : Transport) (raw : list value) :
  let req := get_request self "recent-builds" in
  status_code (respond t req) < 400 →
  json (respond t req) = Ok (VList raw) →
  recent_builds self false t
  = (VList <$> recent_builds_loop raw [], recorded t req).
Proof.
  intros req Hs Hj. unfold recent_builds.
  erewrite bind_run by (apply _get_success; exact Hs).
  fold req. rewrite Hj. unfold lift. cbn [py_iter]. cbn.
  destruct (recent_builds_loop raw []); reflexivity.
Qed.

End Builds.

(** C4.  For every raw build list [raw] the service returns (status
    below 400), the non-verbose result of [project_builds] is the reverse
    of the list of per-build summaries of [raw], and so is, for the list
    its own endpoint returns, the result of [recent_builds]; the first
    record that cannot be summarised raises instead.  Two records in
    chronological order [[b1; b2]] with summaries [o1] and [o2] give
    [[o2; o1]]. *)
Theorem builds_are_reversed `{L : PyLib} (self : CircleAPI)
    (username project : string) (t : Transport) (raw : list value) :
  let rp := respond t (get_request self ("project/" ++ username ++ "/" ++ project)) in
  let rr := respond t (get_request self "recent-builds") in
  (status_code rp < 400 → json rp = Ok (VList raw) →
   (project_builds self username project false t).1
   = (λ l, VList (rev l)) <$> mapM project_builds_body raw
   ∧ ∀ b1 b2 o1 o2, raw = [b1; b2] →
       project_builds_body b1 = Ok o1 → project_builds_body b2 = Ok o2 →
       (project_builds self username project false t).1 = Ok (VList [o2; o1]))
  ∧ (status_code rr < 400 → json rr = Ok (VList raw) →
     (recent_builds self false t).1
     = (λ l, VList (rev l)) <$> mapM recent_builds_body raw
     ∧ ∀ b1 b2 o1 o2, raw = [b1; b2] →
         recent_builds_body b1 = Ok o1 → recent_builds_body b2 = Ok o2 →
         (recent_builds self false t).1 = Ok (VList [o2; o1])).
Proof.
  intros rp rr. split.
  - intros Hsp Hjp.
    assert (Hrun : (project_builds self username project false t).1
                   = (λ l, VList (rev l)) <$> mapM project_builds_body raw).
    { rewrite (project_builds_run self username project t raw Hsp Hjp).
      cbn [fst]. rewrite project_builds_loop_rev.
      destruct (mapM project_builds_body raw); cbn; rewrite ?app_nil_r;
        reflexivity. }
    split; [exact Hrun|].
    intros b1 b2 o1 o2 -> H1 H2. rewrite Hrun.
    cbn [mapM]. rewrite H1, H2. reflexivity.
  - intros Hsr Hjr.
    assert (Hrun : (recent_builds self false t).1
                   = (λ l, VList (rev l)) <$> mapM recent_builds_body raw).
    { rewrite (recent_builds_run self t raw Hsr Hjr).
      cbn [fst]. rewrite recent_builds_loop_rev.
      destruct (mapM recent_builds_body raw); cbn; rewrite ?app_nil_r;
        reflexivity. }
    split; [exact Hrun|].
    intros b1 b2 o1 o2 -> H1 H2. rewrite Hrun.
    cbn [mapM]. rewrite H1, H2. reflexivity.
Qed.

Lemma builds_are_reversed_witness :
  (@project_builds Sample.lib Sample.client "u" "p" false Sample.two_lists).1
  = Ok (VList [VODict Sample.summary2; VODict Sample.summary1])
  ∧ (@recent_builds Sample.lib Sample.client false Sample.two_lists).1
    = Ok (VList [VODict Sample.summary3; VODict Sample.summary2]).
Proof.
  split.
  - destruct (@builds_are_reversed Sample.lib Sample.client "u" "p"
                Sample.two_lists [Sample.build1; Sample.build2]) as [Hp _].
    destruct Hp as [_ Htwo]; [vm_compute; reflexivity | vm_compute; reflexivity |].
    apply (Htwo Sample.build1 Sample.build2); [reflexivity | |];
      vm_compute; reflexivity.
  - destruct (@builds_are_reversed Sample.lib Sample.client "u" "p"
                Sample.two_lists [Sample.build2; Sample.build3]) as [_ Hr].
    destruct Hr as [_ Htwo]; [vm_compute; reflexivity | vm_compute; reflexivity |].
    apply (Htwo Sample.build2 Sample.build3); [reflexivity | |];
      vm_compute; reflexivity.
Defined.

(** C10.  When the service answers the two endpoints with the same
    response (status below 400), the non-verbose results of
    [project_builds] and of [recent_builds] are equal: the same fields in
    the same order, or the same exception of the reshaping. *)
Theorem builds_reshaped_alike `{L : PyLib} (self : CircleAPI)
    (username project : string) (t : Transport) :
  let rp := respond t (get_request self ("project/" ++ username ++ "/" ++ project)) in
  let rr := respond t (get_request self "recent-builds") in
  rp = rr →
  status_code rp < 400 →
  (project_builds self username project false t).1
  = (recent_builds self false t).1.
Proof.
  intros rp rr Hsame Hs.
  unfold project_builds, recent_builds.
  erewrite bind_run by (apply _get_success; exact Hs).
  erewrite (bind_run (_get self "recent-builds" ∅ ∅))
    by (apply _get_success; fold rr; rewrite <- Hsame; exact Hs).
  fold rp rr. rewrite <- Hsame.
  destruct (json rp) as [r_json|e]; [|reflexivity].
  unfold lift. cbn [fst].
  destruct (py_iter r_json) as [builds|e]; [|reflexivity].
  cbn. rewrite loops_agree. reflexivity.
Qed.

Lemma builds_reshaped_alike_witness :
  (@project_builds Sample.lib Sample.client "u" "p" false
     (Sample.double 200
        (Ok (VList [Sample.build1; Sample.build2; Sample.build3])))).1
  = (@recent_builds Sample.lib Sample.client false
       (Sample.double 200
          (Ok (VList [Sample.build1; Sample.build2; Sample.build3])))).1.
Proof.
  apply (@builds_reshaped_alike Sample.lib Sample.client "u" "p"
           (Sample.double 200
              (Ok (VList [Sample.build1; Sample.build2; Sample.build3])))).
  - reflexivity.
  - simpl. lia.
Defined.

(** ** The fields of one summary *)

Section Summary.

Context `{L : PyLib}.

Lemma format_arg_inv (v : value) (s : string) :
  format_arg v = Ok s → ascii_encodable v = true ∧ s = format_field v.
Proof.
  unfold format_arg. destruct (ascii_encodable v); [|discriminate].
  intros Hs. injection Hs as <-. split; reflexivity.
Qed.

Lemma format_arg_ok (v : value) :
  ascii_encodable v = true → format_arg v = Ok (format_field v).
Proof. unfold format_arg. intros ->. reflexivity. Qed.


(** A summary that has been produced: every field it reads was in the
    record, and the fields are these, in this order. *)
Lemma project_builds_body_inv (build o : value) :
  project_builds_body build = Ok o →
  ∃ num email author tag tagfield q queued why burl outcome,
    subscript build "build_num" = Ok num
    ∧ subscript build "author_email" = Ok email
    ∧ (if truthy email
       then ∃ name, subscript build "author_name" = Ok name
              ∧ ascii_encodable name = true
              ∧ ascii_encodable email = true
              ∧ author = VStr (format_field name ++ " <" ++ format_field email ++ ">")
       else author = email)
    ∧ subscript build "vcs_tag" = Ok tag
    ∧ (if truthy tag
       then tagfield = ("Tag    ", tag)
       else ∃ branch, subscript build "branch" = Ok branch
              ∧ tagfield = ("Branch ", py_or branch (VStr "Unknown")))
    ∧ subscript build "queued_at" = Ok q
    ∧ (dt ← dp_parse q; dt ← astimezone_tzlocal dt;
       strftime dt "%a, %b %d, %Y %I:%M%p %Z") = Ok queued
    ∧ subscript build "why" = Ok why
    ∧ subscript build "build_url" = Ok burl
    ∧ subscript build "outcome" = Ok outcome
    ∧ o = VODict [("Build# ", num); ("Author ", author); tagfield;
                  ("Queued ", VStr queued); ("Trigger", why);
                  ("URL    ", burl); ("Result ", outcome)].
Proof.
  unfold project_builds_body, mbind, result_bind, mret, result_ret.
  intros H.
  destruct (subscript build "build_num") as [num|] eqn:Enum; [|discriminate].
  destruct (subscript build "author_email") as [email|] eqn:Eemail; [|discriminate].
  assert (Hauthor : ∃ author,
             (if truthy email
              then ∃ name, subscript build "author_name" = Ok name
                     ∧ ascii_encodable name = true
                     ∧ ascii_encodable email = true
                     ∧ author = VStr (format_field name ++ " <"
                                      ++ format_field email ++ ">")
              else author = email)
             ∧ (if truthy email
                then match subscript build "author_name" with
                     | Ok a =>
                         match format_arg a with
                         | Ok a0 =>
                             match format_arg email with
                             | Ok a1 => Ok (VStr (a0 ++ " <" ++ a1 ++ ">"))
                             | Raise e => Raise e
                             end
                         | Raise e => Raise e
                         end
                     | Raise e => Raise e
                     end
                else Ok email) = Ok author).
  { destruct (truthy email).
    - destruct (subscript build "author_name") as [name|]; [|discriminate].
      destruct (format_arg name) as [sn|] eqn:Hn; [|discriminate].
      destruct (format_arg email) as [se|] eqn:He; [|discriminate].
      apply format_arg_inv in Hn as [Hn ->]. apply format_arg_inv in He as [He ->].
      eexists. split; [|reflexivity]. exists name. repeat split; assumption.
    - exists email. split; reflexivity. }
  destruct Hauthor as (author & Hauthor & Heq). rewrite Heq in H. clear Heq.
  destruct (subscript build "vcs_tag") as [tag|] eqn:Etag; [|discriminate].
  assert (Htag : ∃ tagfield,
             (if truthy tag
              then tagfield = ("Tag    ", tag)
              else ∃ branch, subscript build "branch" = Ok branch
                     ∧ tagfield = ("Branch ", py_or branch (VStr "Unknown")))
             ∧ (if truthy tag
                then Ok (odict_set
                           (odict_set (odict_set [] "Build# " num) "Author " author)
                           "Tag    " tag)
                else match subscript build "branch" with
                     | Ok a0 =>
                         Ok (odict_set
                               (odict_set (odict_set [] "Build# " num)
                                  "Author " author)
                               "Branch " (py_or a0 (VStr "Unknown")))
                     | Raise e => Raise e
                     end)
               = Ok [("Build# ", num); ("Author ", author); tagfield]).
  { destruct (truthy tag).
    - eexists. split; reflexivity.
    - destruct (subscript build "branch") as [branch|]; [|discriminate].
      eexists. split; [exists branch; split; reflexivity | reflexivity]. }
  destruct Htag as (tagfield & Htag & Heq). rewrite Heq in H. clear Heq.
  destruct (subscript build "queued_at") as [q|] eqn:Eq; [|discriminate].
  destruct (dp_parse q) as [dt|] eqn:Edt; [|discriminate].
  destruct (astimezone_tzlocal dt) as [dt'|] eqn:Edt'; [|discriminate].
  destruct (strftime dt' "%a, %b %d, %Y %I:%M%p %Z") as [queued|] eqn:Eqd;
    [|discriminate].
  destruct (subscript build "why") as [why|] eqn:Ewhy; [|discriminate].
  destruct (subscript build "build_url") as [burl|] eqn:Eurl; [|discriminate].
  destruct (subscript build "outcome") as [outcome|] eqn:Eout; [|discriminate].
  injection H as <-.
  exists num, email, author, tag, tagfield, q, queued, why, burl, outcome.
  rewrite Edt. cbn. rewrite Edt'.
  destruct tagfield as [k w].
  assert (Hk : k = "Tag    " ∨ k = "Branch ").
  { destruct (truthy tag).
    - injection Htag as -> _. left. reflexivity.
    - destruct Htag as (branch & _ & Hf). injection Hf as -> _. right. reflexivity. }
  repeat (split; [first [reflexivity | assumption]|]).
  destruct Hk as [-> | ->]; reflexivity.
Qed.

(** The converse: a record that has the fields the body reads, with
    author text the template accepts and a time stamp the date functions
    accept, is summarised. *)
Lemma project_builds_body_ok (build num email author tag q why burl outcome
    : value) (tagfield : string * value) (queued : string) :
  subscript build "build_num" = Ok num →
  subscript build "author_email" = Ok email →
  (if truthy email
   then ∃ name, subscript build "author_name" = Ok name
          ∧ ascii_encodable name = true
          ∧ ascii_encodable email = true
          ∧ author = VStr (format_field name ++ " <" ++ format_field email ++ ">")
   else author = email) →
  subscript build "vcs_tag" = Ok tag →
  (if truthy tag
   then tagfield = ("Tag    ", tag)
   else ∃ branch, subscript build "branch" = Ok branch
          ∧ tagfield = ("Branch ", py_or branch (VStr "Unknown"))) →
  subscript build "queued_at" = Ok q →
  (dt ← dp_parse q; dt ← astimezone_tzlocal dt;
   strftime dt "%a, %b %d, %Y %I:%M%p %Z") = Ok queued →
  subscript build "why" = Ok why →
  subscript build "build_url" = Ok burl →
  subscript build "outcome" = Ok outcome →
  project_builds_body build
  = Ok (VODict [("Build# ", num); ("Author ", author); tagfield;
                ("Queued ", VStr queued); ("Trigger", why);
                ("URL    ", burl); ("Result ", outcome)]).
Proof.
  intros Hnum Hemail Hauthor Htag Hfield Hq Hqueued Hwhy Hurl Hout.
  unfold project_builds_body.
  unfold mbind, result_bind, mret, result_ret in *.
  rewrite Hnum, Hemail, Htag, Hq.
  destruct (dp_parse q) as [dt|]; [|discriminate].
  destruct (astimezone_tzlocal dt) as [dt'|]; [|discriminate].
  rewrite Hqueued, Hwhy, Hurl, Hout.
  destruct (truthy email).
  - destruct Hauthor as (name & Hname & Hn & He & ->).
    rewrite Hname, (format_arg_ok _ Hn), (format_arg_ok _ He).
    destruct (truthy tag).
    + subst tagfield. reflexivity.
    + destruct Hfield as (branch & Hbranch & ->). rewrite Hbranch. reflexivity.
  - subst author. destruct (truthy tag).
    + subst tagfield. reflexivity.
    + destruct Hfield as (branch & Hbranch & ->). rewrite Hbranch. reflexivity.
Qed.


Lemma truthy_text (e : string) : truthy (VStr e) = Str.nonempty e.
Proof. reflexivity. Qed.

Lemma nonempty_false (e : string) : Str.nonempty e = false → e = "".
Proof. destruct e; [reflexivity | discriminate]. Qed.

Lemma nonempty_true (e : string) : e ≠ "" → Str.nonempty e = true.
Proof. destruct e; [congruence | reflexivity]. Qed.


End Summary.

(** C7.  For a build record that has the fields the summary reads (with
    author text the template accepts when an e-mail is set, and a queue
    time the date functions accept), each of the two methods produces a
    summary; a [vcs_tag] that is set gives the field [Tag] with that tag
    and no field [Branch]; a [vcs_tag] that is not set ([null] or empty)
    gives no field [Tag] and the field [Branch] with the record's branch,
    or the text [Unknown] when the branch is not set either.  The same
    holds of every summary the two methods produce. *)
Theorem tag_or_branch_field `{L : PyLib} (body : value → result value)
    (build : value) :
  body = project_builds_body ∨ body = recent_builds_body →
  (∀ num email tag q queued why burl outcome,
     subscript build "build_num" = Ok num →
     subscript build "author_email" = Ok email →
     (truthy email = true →
      ∃ name, subscript build "author_name" = Ok name
        ∧ ascii_encodable name = true ∧ ascii_encodable email = true) →
     subscript build "vcs_tag" = Ok tag →
     subscript build "queued_at" = Ok q →
     (dt ← dp_parse q; dt ← astimezone_tzlocal dt;
      strftime dt "%a, %b %d, %Y %I:%M%p %Z") = Ok queued →
     subscript build "why" = Ok why →
     subscript build "build_url" = Ok burl →
     subscript build "outcome" = Ok outcome →
     if truthy tag
     then ∃ fields, body build = Ok (VODict fields)
            ∧ odict_get fields "Tag    " = Some tag
            ∧ odict_get fields "Branch " = None
     else ∀ branch, subscript build "branch" = Ok branch →
            ∃ fields, body build = Ok (VODict fields)
              ∧ odict_get fields "Tag    " = None
              ∧ odict_get fields "Branch "
                = Some (if truthy branch then branch else VStr "Unknown"))
  ∧ (∀ fields, body build = Ok (VODict fields) →
       ∃ tag, subscript build "vcs_tag" = Ok tag
         ∧ if truthy tag
           then odict_get fields "Tag    " = Some tag
                ∧ odict_get fields "Branch " = None
           else ∃ branch, subscript build "branch" = Ok branch
                  ∧ odict_get fields "Tag    " = None
                  ∧ odict_get fields "Branch "
                    = Some (if truthy branch then branch else VStr "Unknown")).
Proof.
  intros Hbody.
  assert (Hsame : body build = project_builds_body build).
  { destruct Hbody as [-> | ->]; [reflexivity | symmetry; apply bodies_agree]. }
  rewrite Hsame. clear Hsame Hbody body. split.
  - intros num email tag q queued why burl outcome
      Hnum Hemail Hauthor Htag Hq Hqueued Hwhy Hurl Hout.
    assert (Ha : ∃ author,
               if truthy email
               then ∃ name, subscript build "author_name" = Ok name
                      ∧ ascii_encodable name = true
                      ∧ ascii_encodable email = true
                      ∧ author = VStr (format_field name ++ " <"
                                       ++ format_field email ++ ">")
               else author = email).
    { destruct (truthy email).
      - destruct (Hauthor eq_refl) as (name & Hname & Hn & He).
        eexists. exists name. repeat split; eassumption.
      - exists email. reflexivity. }
    destruct Ha as (author & Ha).
    destruct (truthy tag) eqn:Ht.
    + eexists. split.
      * apply (project_builds_body_ok build num email author tag q why burl
                 outcome ("Tag    ", tag) queued); try assumption.
        rewrite Ht. reflexivity.
      * split; reflexivity.
    + intros branch Hbranch. eexists. split.
      * apply (project_builds_body_ok build num email author tag q why burl
                 outcome ("Branch ", py_or branch (VStr "Unknown")) queued);
          try assumption.
        rewrite Ht. exists branch. split; [exact Hbranch | reflexivity].
      * split; reflexivity.
  - intros fields Hpb.
    destruct (project_builds_body_inv build _ Hpb)
      as (num & email & author & tag & tagfield & q & queued & why & burl
          & outcome & _ & _ & _ & Htag & Hfield & _ & _ & _ & _ & _ & Ho).
    injection Ho as ->. exists tag. split; [exact Htag|].
    destruct (truthy tag).
    + subst tagfield. split; reflexivity.
    + destruct Hfield as (branch & Hbranch & ->).
      exists branch. split; [exact Hbranch|]. split; reflexivity.
Qed.

Lemma tag_or_branch_field_witness :
  (∃ fields, @recent_builds_body Sample.lib Sample.build2 = Ok (VODict fields)
     ∧ odict_get fields "Tag    " = Some (VStr "v1.0")
     ∧ odict_get fields "Branch " = None)
  ∧ (∃ fields, @project_builds_body Sample.lib Sample.build3 = Ok (VODict fields)
       ∧ odict_get fields "Tag    " = None
       ∧ odict_get fields "Branch " = Some (VStr "Unknown")).
Proof.
  split.
  - destruct (@tag_or_branch_field Sample.lib (@recent_builds_body Sample.lib)
                Sample.build2 (or_intror eq_refl)) as [Hmake _].
    apply (Hmake (VInt 2) (VStr "") (VStr "v1.0") (VStr "t2") "t2"
             (VStr "api") (VStr "https://ci/2") (VStr "failed"));
      try (vm_compute; reflexivity).
    intros Hfalse. vm_compute in Hfalse. discriminate Hfalse.
  - destruct (@tag_or_branch_field Sample.lib (@project_builds_body Sample.lib)
                Sample.build3 (or_introl eq_refl)) as [Hmake _].
    apply (Hmake (VInt 3) VNone VNone (VStr "t3") "t3"
             (VStr "retry") (VStr "https://ci/3") VNone
             ltac:(vm_compute; reflexivity) ltac:(vm_compute; reflexivity)
             ltac:(intros Hfalse; vm_compute in Hfalse; discriminate Hfalse)
             ltac:(vm_compute; reflexivity) ltac:(vm_compute; reflexivity)
             ltac:(vm_compute; reflexivity) ltac:(vm_compute; reflexivity)
             ltac:(vm_compute; reflexivity) ltac:(vm_compute; reflexivity)
             VNone).
    vm_compute. reflexivity.
Defined.







(** ** Records that lack a field

    A field the body reads and the record does not have ends the method
    with [KeyError]; a [null] field is a field. *)

Example missing_vcs_tag_raises :
  @project_builds_body Sample.lib
    (VDict {[ "build_num" := VInt 1; "author_name" := VStr "Ann";
              "author_email" := VStr ""; "branch" := VStr "main" ]})
  = Raise (KeyError "vcs_tag").
Proof. vm_compute. reflexivity. Qed.

Example one_bad_record_ends_the_loop :
  (@project_builds Sample.lib Sample.client "u" "p" false
     (Sample.double 200 (Ok (VList [Sample.build1; VNone; Sample.build2])))).1
  = Raise TypeError.
Proof. vm_compute. reflexivity. Qed.

Example failure_status_wins_over_body :
  (@project_builds Sample.lib Sample.client "u" "p" false
     (Sample.double 404 (Ok (VList [Sample.build1])))).1
  = Raise (Exception
      "Error sending GET request to https://circleci.com/api/v1/project/u/p?circle-token=tok").
Proof. vm_compute. reflexivity. Qed.

(** * Further properties of the client *)

(** ** What a call does to the transport *)

(** X1.  A public call leaves the transport's answers as they were and
    records at most one request after the earlier ones: the request
    [issued] describes for the calls that go to the network (whether they
    then succeed or raise, verbose or not), and nothing for the stubs. *)
Theorem call_sends_at_most_one_request `{L : PyLib} (self : CircleAPI)
    (c : Call) (t : Transport) :
  (invoke self c t).2
  = match issued self c with Some req => recorded t req | None => t end.
Proof.
  unfold issued.
  destruct c; cbn [endpoint_of invoke]; try reflexivity;
    unfold me, projects, project_builds, recent_builds, build_details,
      artifacts, retry_build, cancel_build, list_checkout_keys,
      checkout_key, delete_checkout_key, clear_cache;
    first
      [ erewrite bind_run by apply _get_run
      | rewrite _get_run | rewrite _post_run | rewrite _delete_run ];
    cbv zeta; rewrite ?dict_update_empty;
    try reflexivity;
    destruct (verb_outcome _ _ _); try reflexivity;
    destruct verbose; reflexivity.
Qed.

(** X2.  The methods without a [verbose] flag that go to the network
    ([build_details], [artifacts], [retry_build], [cancel_build],
    [list_checkout_keys], [checkout_key], [delete_checkout_key],
    [clear_cache]) return, on a status below 400, what [r.json()] gives and
    nothing else: the decoded body, or the exception of the decoder. *)
Theorem raw_methods_return_the_decoded_body `{L : PyLib} (self : CircleAPI)
    (c : Call) (req : Request) (t : Transport) :
  verbose_of c = None →
  issued self c = Some req →
  status_code (respond t req) < 400 →
  invoke self c t = (json (respond t req), recorded t req).
Proof.
  intros Hv Hreq Hs. unfold issued in Hreq.
  destruct c; cbn [verbose_of] in Hv; try discriminate Hv;
    cbn [endpoint_of] in Hreq; try discriminate Hreq;
    injection Hreq as <-; cbn [invoke];
    unfold build_details, artifacts, retry_build, cancel_build,
      list_checkout_keys, checkout_key, delete_checkout_key, clear_cache;
    first [ rewrite _get_run | rewrite _post_run | rewrite _delete_run ];
    cbv zeta; rewrite ?dict_update_empty;
    unfold verb_outcome; cbn [url];
    (destruct (400 <=? _) eqn:Hc; [lia | reflexivity]).
Qed.

Lemma raw_methods_return_the_decoded_body_witness :
  @invoke Sample.lib Sample.client (CallRetryBuild "u" "p" 7)
    (Sample.double 201 (Ok Sample.build1))
  = (Ok Sample.build1,
     recorded (Sample.double 201 (Ok Sample.build1))
       (mkRequest POST
          "https://circleci.com/api/v1/project/u/p/7/retry?circle-token=tok"
          default_headers None)).
Proof.
  apply (@raw_methods_return_the_decoded_body Sample.lib Sample.client
           (CallRetryBuild "u" "p" 7)
           (mkRequest POST
              "https://circleci.com/api/v1/project/u/p/7/retry?circle-token=tok"
              default_headers None)
           (Sample.double 201 (Ok Sample.build1))).
  - reflexivity.
  - vm_compute. reflexivity.
  - simpl. lia.
Defined.

(** X3.  Every request a public call of a client adds to the transport
    has as its URL the text made of the base URL, a slash, the endpoint of
    the call, [?circle-token=] and the client's token quoted by
    [quote_plus], whatever the arguments of the call. *)
Theorem every_request_carries_the_token `{L : PyLib} (token : string)
    (c : Call) (t : Transport) (req : Request) :
  req ∈ calls (invoke (__init__ token) c t).2 →
  req ∈ calls t
  ∨ ∃ v endpoint,
      endpoint_of c = Some (v, endpoint)
      ∧ verb req = v
      ∧ url req = "https://circleci.com/api/v1/" ++ endpoint
                  ++ "?circle-token=" ++ Urllib.quote_plus token.
Proof.
  rewrite invoke_calls. unfold issued.
  intros Hin. apply elem_of_app in Hin as [Hin | Hin]; [left; exact Hin|].
  right. destruct (endpoint_of c) as [[v e]|]; [|inversion Hin].
  apply list_elem_of_singleton in Hin. subst req. exists v, e. cbn [url verb].
  split; [reflexivity|]. split; [reflexivity|].
  rewrite build_url_unfold. unfold new_params, dict_update.
  rewrite (left_id_L ∅ _), urlencode_singleton. reflexivity.
Qed.

Lemma every_request_carries_the_token_witness :
  ∃ v endpoint,
    endpoint_of (CallCheckoutKey "u" "p" "ab:cd") = Some (v, endpoint)
    ∧ GET = v
    ∧ "https://circleci.com/api/v1/project/u/p/checkout-key/ab:cd?circle-token=s3+cr%2Ft"
      = "https://circleci.com/api/v1/" ++ endpoint
        ++ "?circle-token=" ++ Urllib.quote_plus "s3 cr/t".
Proof.
  destruct (@every_request_carries_the_token Sample.lib "s3 cr/t"
              (CallCheckoutKey "u" "p" "ab:cd")
              (Sample.double 200 (Ok VNone))
              (mkRequest GET
                 "https://circleci.com/api/v1/project/u/p/checkout-key/ab:cd?circle-token=s3+cr%2Ft"
                 default_headers None)) as [Hold | Hnew].
  - vm_compute. apply list_elem_of_here.
  - vm_compute in Hold. inversion Hold.
  - exact Hnew.
Defined.

(** X4.  GET and POST send the headers [Content-Type] and [Accept] with
    the value [application/json] updated by the caller's headers: a header
    of the caller is sent with the caller's value, also when it is one of
    the two, and no other header is sent. *)
Theorem get_and_post_headers `{O : DictOrder} (self : CircleAPI)
    (endpoint : string)
    (params hdrs : gmap string string) (d : option value) (t : Transport)
    (k : string) :
  (headers <$> last (calls (_get self endpoint params hdrs t).2))
  = (headers <$> last (calls (_post self endpoint d hdrs t).2))
  ∧ ∃ sent, (headers <$> last (calls (_get self endpoint params hdrs t).2))
            = Some sent
      ∧ sent !! k
        = match hdrs !! k with
          | Some v => Some v
          | None =>
              if decide (k = "Content-Type" ∨ k = "Accept")
              then Some "application/json" else None
          end.
Proof.
  rewrite _get_run, _post_run. cbv zeta. cbn [snd recorded calls].
  rewrite !last_snoc. cbn. split; [reflexivity|].
  eexists; split; [reflexivity|].
  rewrite merged_headers_lookup. destruct (hdrs !! k); [reflexivity|].
  unfold default_headers. case_decide as Hk.
  - destruct Hk as [Hk | Hk]; subst k; reflexivity.
  - rewrite lookup_insert_ne by (intros Heq; subst k; tauto).
    apply lookup_singleton_ne. intros Heq; subst k; tauto.
Qed.


(** ** The list of summaries *)

Section SummaryList.

Context `{L : PyLib}.



(** The loop stops at the first record its body rejects. *)
Lemma project_builds_loop_stops (pre post resp : list value) (b : value)
    (e : exn) :
  Forall (λ x, ∃ o, project_builds_body x = Ok o) pre →
  project_builds_body b = Raise e →
  project_builds_loop (pre ++ b :: post) resp = Raise e.
Proof.
  intros Hpre Hb. revert resp.
  induction Hpre as [|x pre [o Hx] _ IH]; intros resp.
  - cbn [app project_builds_loop]. rewrite Hb. reflexivity.
  - cbn [app project_builds_loop]. rewrite Hx. apply IH.
Qed.

(** The body rejects what is not a record. *)
Lemma project_builds_body_text (k : string) :
  project_builds_body (VStr k) = Raise TypeError.
Proof. reflexivity. Qed.

Lemma projects_item_text (k : string) :
  projects_item (VStr k) = Raise TypeError.
Proof. reflexivity. Qed.

Lemma py_iter_dict_nonempty (d : gmap string value) :
  d ≠ ∅ → ∃ k rest, py_iter (VDict d) = Ok (VStr k :: rest).
Proof.
  intros Hd. cbn [py_iter].
  destruct (dict_items d) as [|[k v] l] eqn:Hl.
  - apply dict_items_nonempty in Hd. contradiction.
  - exists k. eexists. reflexivity.
Qed.

End SummaryList.

(** X5.  A summary has seven fields, always in the order build number,
    author, tag or branch, queue time, trigger, URL, result; the third one
    is [Tag] or [Branch], never both. *)
Theorem summary_fields_in_order `{L : PyLib} (body : value → result value)
    (build : value) (fields : list (string * value)) :
  body = project_builds_body ∨ body = recent_builds_body →
  body build = Ok (VODict fields) →
  ∃ third, (third = "Tag    " ∨ third = "Branch ")
    ∧ fields.*1
      = ["Build# "; "Author "; third; "Queued "; "Trigger"; "URL    ";
         "Result "].
Proof.
  intros Hbody Hok.
  assert (Hpb : project_builds_body build = Ok (VODict fields)).
  { destruct Hbody as [-> | ->]; [exact Hok | rewrite bodies_agree; exact Hok]. }
  destruct (project_builds_body_inv build _ Hpb)
    as (num & email & author & tag & tagfield & q & queued & why & burl
        & outcome & _ & _ & _ & _ & Hfield & _ & _ & _ & _ & _ & Ho).
  injection Ho as ->. exists tagfield.1. split.
  - destruct (truthy tag).
    + subst tagfield. left. reflexivity.
    + destruct Hfield as (branch & _ & ->). right. reflexivity.
  - reflexivity.
Qed.

Lemma summary_fields_in_order_witness :
  ∃ third, (third = "Tag    " ∨ third = "Branch ")
    ∧ Sample.summary2.*1
      = ["Build# "; "Author "; third; "Queued "; "Trigger"; "URL    ";
         "Result "].
Proof.
  apply (@summary_fields_in_order Sample.lib (@recent_builds_body Sample.lib)
           Sample.build2 Sample.summary2).
  - right. reflexivity.
  - vm_compute. reflexivity.
Defined.



(** X7.  The first record of the raw list that cannot be summarised ends
    [project_builds] and [recent_builds] with its exception: the summaries
    made before it are not returned, and the records after it are not
    looked at. *)
Theorem first_bad_record_raises `{L : PyLib} (self : CircleAPI)
    (username project : string) (t : Transport) (pre post : list value)
    (b : value) (e : exn) :
  let rp := respond t (get_request self ("project/" ++ username ++ "/" ++ project)) in
  let rr := respond t (get_request self "recent-builds") in
  Forall (λ x, ∃ o, project_builds_body x = Ok o) pre →
  project_builds_body b = Raise e →
  (status_code rp < 400 → json rp = Ok (VList (pre ++ b :: post)) →
   (project_builds self username project false t).1 = Raise e)
  ∧ (status_code rr < 400 → json rr = Ok (VList (pre ++ b :: post)) →
     (recent_builds self false t).1 = Raise e).
Proof.
  intros rp rr Hpre Hb. split; intros Hs Hj.
  - rewrite (project_builds_run self username project t _ Hs Hj).
    cbn [fst]. rewrite (project_builds_loop_stops pre post [] b e Hpre Hb).
    reflexivity.
  - rewrite (recent_builds_run self t _ Hs Hj).
    cbn [fst]. rewrite <- loops_agree.
    rewrite (project_builds_loop_stops pre post [] b e Hpre Hb).
    reflexivity.
Qed.

Lemma first_bad_record_raises_witness :
  (@project_builds Sample.lib Sample.client "u" "p" false
     (Sample.double 200
        (Ok (VList [Sample.build1; VDict ∅; Sample.build2])))).1
  = Raise (KeyError "build_num").
Proof.
  apply (@first_bad_record_raises Sample.lib Sample.client "u" "p"
           (Sample.double 200
              (Ok (VList [Sample.build1; VDict ∅; Sample.build2])))
           [Sample.build1] [Sample.build2] (VDict ∅) (KeyError "build_num")).
  - constructor; [|constructor]. eexists. vm_compute. reflexivity.
  - vm_compute. reflexivity.
  - simpl. lia.
  - reflexivity.
Defined.

(** X8.  A response that decodes to a JSON object with at least one key
    (such as an error message object) instead of a list makes non-verbose
    [projects], [project_builds] and [recent_builds] raise [TypeError]:
    the loop runs over the keys, which are text and have no fields. *)
Theorem object_response_raises_type_error `{L : PyLib} (self : CircleAPI)
    (username project : string) (t : Transport) (d : gmap string value) :
  d ≠ ∅ →
  (∀ req, status_code (respond t req) < 400
          ∧ json (respond t req) = Ok (VDict d)) →
  (projects self false t).1 = Raise TypeError
  ∧ (project_builds self username project false t).1 = Raise TypeError
  ∧ (recent_builds self false t).1 = Raise TypeError.
Proof.
  intros Hd Hresp.
  destruct (py_iter_dict_nonempty d Hd) as (k & rest & Hiter).
  unfold projects, project_builds, recent_builds.
  repeat split;
    (erewrite bind_run by (apply _get_success; apply Hresp));
    rewrite (proj2 (Hresp _)); unfold lift; cbn [fst];
    rewrite Hiter; reflexivity.
Qed.

Lemma object_response_raises_type_error_witness :
  (@projects Sample.lib Sample.client false
     (Sample.double 200 (Ok (VDict {[ "message" := VStr "Not found" ]})))).1
  = Raise TypeError.
Proof.
  destruct (@object_response_raises_type_error Sample.lib Sample.client "u" "p"
              (Sample.double 200 (Ok (VDict {[ "message" := VStr "Not found" ]})))
              {[ "message" := VStr "Not found" ]}) as [Hprojects _].
  - apply map_non_empty_singleton.
  - intros req. split; [simpl; lia | reflexivity].
  - exact Hprojects.
Defined.

(** ** The profile summary of [me] *)

Section Profile.

Context `{L : PyLib}.

Lemma mapM_as_str_text (parts : list string) :
  mapM as_str (VStr <$> parts) = Ok parts.
Proof.
  induction parts as [|p parts IH]; [reflexivity|].
  cbn [fmap list_fmap mapM as_str].
  rewrite IH. reflexivity.
Qed.

Lemma mapM_as_str_inv (items : list value) (parts : list string) :
  mapM as_str items = Ok parts → items = VStr <$> parts.
Proof.
  revert parts. induction items as [|x items IH]; intros parts Hp.
  - injection Hp as <-. reflexivity.
  - cbn [mapM] in Hp. unfold mbind, result_bind, mret, result_ret in Hp.
    destruct x; try discriminate Hp. cbn [as_str] in Hp.
    fold (mapM as_str items) in Hp.
    destruct (mapM as_str items) as [k|] eqn:Hk; [|discriminate].
    injection Hp as <-. cbn [fmap list_fmap]. f_equal. apply IH. reflexivity.
Qed.

(** One element that is not text makes the join raise [TypeError]. *)
Lemma mapM_as_str_not_text (items : list value) (x : value) :
  x ∈ items → (∀ s, x ≠ VStr s) → mapM as_str items = Raise TypeError.
Proof.
  intros Hin Hx. induction items as [|y items IH]; [inversion Hin|].
  cbn [mapM].
  destruct y; try reflexivity.
  apply elem_of_cons in Hin as [-> | Hin].
  - exfalso. eapply Hx. reflexivity.
  - cbn [as_str]. rewrite (IH Hin). reflexivity.
Qed.

Lemma py_join_text (sep : string) (parts : list string) :
  py_join sep (VList (VStr <$> parts)) = Ok (VStr (Str.join sep parts)).
Proof.
  unfold py_join. cbn [py_iter].
  unfold mbind at 1, result_bind at 1.
  rewrite mapM_as_str_text. reflexivity.
Qed.

Lemma py_join_inv (sep : string) (v w : value) :
  py_join sep v = Ok w →
  ∃ parts, py_iter v = Ok (VStr <$> parts) ∧ w = VStr (Str.join sep parts).
Proof.
  unfold py_join, mbind, result_bind, mret, result_ret.
  destruct (py_iter v) as [items|]; [|discriminate].
  destruct (mapM as_str items) as [parts|] eqn:Hparts; [|discriminate].
  intros Hw. injection Hw as <-. exists parts.
  rewrite (mapM_as_str_inv _ _ Hparts). split; reflexivity.
Qed.

End Profile.

(** X9.  For a profile that has the nine fields [me] reads, with a list
    of text under [all_emails] and an object under [projects], non-verbose
    [me] returns the nine display fields in this order: seven fields of the
    response as they are, the e-mails joined by a comma and a space, and
    the keys of [projects], each once, joined the same way in the order in
    which the dictionary enumerates them. *)
Theorem me_summary `{L : PyLib} (self : CircleAPI) (t : Transport)
    (r_json name count key containers parallelism login admin : value)
    (emails : list string) (projs : gmap string value) :
  status_code (respond t (get_request self "me")) < 400 →
  json (respond t (get_request self "me")) = Ok r_json →
  subscript r_json "name" = Ok name →
  subscript r_json "all_emails" = Ok (VList (VStr <$> emails)) →
  subscript r_json "sign_in_count" = Ok count →
  subscript r_json "heroku_api_key" = Ok key →
  subscript r_json "containers" = Ok containers →
  subscript r_json "parallelism" = Ok parallelism →
  subscript r_json "login" = Ok login →
  subscript r_json "admin" = Ok admin →
  subscript r_json "projects" = Ok (VDict projs) →
  ∃ keys, keys ≡ₚ (map_to_list projs).*1
    ∧ (me self false t).1
      = Ok (VODict
              [("Name", name); ("Emails", VStr (Str.join ", " emails));
               ("Sign-In Count", count); ("Heroku API Key", key);
               ("Containers", containers); ("Parallelism", parallelism);
               ("Username", login); ("Admin", admin);
               ("Projects", VStr (Str.join ", " keys))]).
Proof.
  intros Hs Hj Hname Hemails Hcount Hkey Hcont Hpar Hlogin Hadmin Hprojs.
  exists (dict_items projs).*1. split.
  - rewrite (dict_items_perm value projs). reflexivity.
  - unfold me. erewrite bind_run by (apply _get_success; exact Hs).
    rewrite Hj. unfold lift. cbn [fst].
    rewrite Hname, Hemails, Hcount, Hkey, Hcont, Hpar, Hlogin, Hadmin, Hprojs.
    cbn [mbind result_bind dict_keys].
    rewrite py_join_text.
    cbn [mbind result_bind].
    replace (map (λ kv : string * value, VStr kv.1) (dict_items projs))
      with (VStr <$> (dict_items projs).*1)
      by (rewrite <- list_fmap_compose; reflexivity).
    rewrite py_join_text. reflexivity.
Qed.

Lemma me_summary_witness :
  ∃ keys,
    keys ≡ₚ (map_to_list
               ({[ "https://github.com/a/b" := VDict ∅;
                   "https://github.com/c/d" := VDict ∅ ]}
                : gmap string value)).*1
    ∧ (@me Sample.lib Sample.client false
         (Sample.double 200 (Ok Sample.profile2))).1
      = Ok (VODict
              [("Name", VStr "Ann"); ("Emails", VStr (Str.join ", " ["a@x.org"]));
               ("Sign-In Count", VInt 12); ("Heroku API Key", VNone);
               ("Containers", VInt 1); ("Parallelism", VInt 1);
               ("Username", VStr "ann"); ("Admin", VBool false);
               ("Projects", VStr (Str.join ", " keys))]).
Proof.
  apply (@me_summary Sample.lib Sample.client
           (Sample.double 200 (Ok Sample.profile2)) Sample.profile2
           (VStr "Ann") (VInt 12) VNone (VInt 1) (VInt 1) (VStr "ann")
           (VBool false) ["a@x.org"]
           {[ "https://github.com/a/b" := VDict ∅;
              "https://github.com/c/d" := VDict ∅ ]}).
  - simpl. lia.
  - reflexivity.
  - vm_compute. reflexivity.
  - vm_compute. reflexivity.
  - vm_compute. reflexivity.
  - vm_compute. reflexivity.
  - vm_compute. reflexivity.
  - vm_compute. reflexivity.
  - vm_compute. reflexivity.
  - vm_compute. reflexivity.
  - vm_compute. reflexivity.
Defined.

(** X10.  For a response [r_json] (status below 400): whenever
    non-verbose [me] returns, [r_json] had all nine fields it reads, the
    e-mails were all text, [projects] had keys, and the result is the
    complete nine-field record in order, seven fields unchanged and
    [Emails] and [Projects] the joined texts.  A missing field among the
    nine, or an e-mail that is not text, makes [me] raise: there is never
    a partial record. *)
Theorem me_returns_the_whole_summary `{L : PyLib} (self : CircleAPI)
    (t : Transport) (r_json : value) :
  status_code (respond t (get_request self "me")) < 400 →
  json (respond t (get_request self "me")) = Ok r_json →
  (∀ v, (me self false t).1 = Ok v →
     ∃ name es emails count key containers parallelism login admin ps ks keys,
       subscript r_json "name" = Ok name
       ∧ subscript r_json "all_emails" = Ok es
       ∧ py_iter es = Ok (VStr <$> emails)
       ∧ subscript r_json "sign_in_count" = Ok count
       ∧ subscript r_json "heroku_api_key" = Ok key
       ∧ subscript r_json "containers" = Ok containers
       ∧ subscript r_json "parallelism" = Ok parallelism
       ∧ subscript r_json "login" = Ok login
       ∧ subscript r_json "admin" = Ok admin
       ∧ subscript r_json "projects" = Ok ps
       ∧ dict_keys ps = Ok ks
       ∧ py_iter ks = Ok (VStr <$> keys)
       ∧ v = VODict
               [("Name", name); ("Emails", VStr (Str.join ", " emails));
                ("Sign-In Count", count); ("Heroku API Key", key);
                ("Containers", containers); ("Parallelism", parallelism);
                ("Username", login); ("Admin", admin);
                ("Projects", VStr (Str.join ", " keys))])
  ∧ (∀ k e,
       k ∈ ["name"; "all_emails"; "sign_in_count"; "heroku_api_key";
            "containers"; "parallelism"; "login"; "admin"; "projects"] →
       subscript r_json k = Raise e →
       ∃ e', (me self false t).1 = Raise e')
  ∧ (∀ name es items x,
       subscript r_json "name" = Ok name →
       subscript r_json "all_emails" = Ok es →
       py_iter es = Ok items →
       x ∈ items → (∀ s, x ≠ VStr s) →
       (me self false t).1 = Raise TypeError).
Proof.
  intros Hs Hj.
  assert (Hinv : ∀ v, (me self false t).1 = Ok v →
     ∃ name es emails count key containers parallelism login admin ps ks keys,
       subscript r_json "name" = Ok name
       ∧ subscript r_json "all_emails" = Ok es
       ∧ py_iter es = Ok (VStr <$> emails)
       ∧ subscript r_json "sign_in_count" = Ok count
       ∧ subscript r_json "heroku_api_key" = Ok key
       ∧ subscript r_json "containers" = Ok containers
       ∧ subscript r_json "parallelism" = Ok parallelism
       ∧ subscript r_json "login" = Ok login
       ∧ subscript r_json "admin" = Ok admin
       ∧ subscript r_json "projects" = Ok ps
       ∧ dict_keys ps = Ok ks
       ∧ py_iter ks = Ok (VStr <$> keys)
       ∧ v = VODict
               [("Name", name); ("Emails", VStr (Str.join ", " emails));
                ("Sign-In Count", count); ("Heroku API Key", key);
                ("Containers", containers); ("Parallelism", parallelism);
                ("Username", login); ("Admin", admin);
                ("Projects", VStr (Str.join ", " keys))]).
  { intros v Hv.
    unfold me in Hv. erewrite bind_run in Hv by (apply _get_success; exact Hs).
    rewrite Hj in Hv. unfold lift in Hv. cbn [fst] in Hv.
    unfold mbind, result_bind, mret, result_ret in Hv.
    destruct (subscript r_json "name") as [name|]; [|discriminate].
    destruct (subscript r_json "all_emails") as [es|]; [|discriminate].
    destruct (py_join ", " es) as [joined|] eqn:Hjoin; [|discriminate].
    destruct (subscript r_json "sign_in_count") as [count|]; [|discriminate].
    destruct (subscript r_json "heroku_api_key") as [key|]; [|discriminate].
    destruct (subscript r_json "containers") as [containers|]; [|discriminate].
    destruct (subscript r_json "parallelism") as [parallelism|]; [|discriminate].
    destruct (subscript r_json "login") as [login|]; [|discriminate].
    destruct (subscript r_json "admin") as [admin|]; [|discriminate].
    destruct (subscript r_json "projects") as [ps|]; [|discriminate].
    destruct (dict_keys ps) as [ks|] eqn:Hks; [|discriminate].
    destruct (py_join ", " ks) as [pjoined|] eqn:Hpjoin; [|discriminate].
    destruct (py_join_inv _ _ _ Hjoin) as (emails & Hemails & ->).
    destruct (py_join_inv _ _ _ Hpjoin) as (keys & Hkeys & ->).
    injection Hv as <-.
    exists name, es, emails, count, key, containers, parallelism, login, admin,
      ps, ks, keys.
    repeat (split; [first [reflexivity | assumption]|]). reflexivity. }
  split; [exact Hinv|]. split.
  - intros k e Hk Hmiss.
    destruct (me self false t).1 as [v|e'] eqn:Hme; [|exists e'; reflexivity].
    exfalso.
    destruct (Hinv v eq_refl)
      as (name & es & emails & count & key & containers & parallelism & login
          & admin & ps & ks & keys & H1 & H2 & _ & H3 & H4 & H5 & H6 & H7 & H8
          & H9 & _).
    repeat (apply elem_of_cons in Hk as [-> | Hk]; [congruence|]).
    inversion Hk.
  - intros name es items x Hname Hes Hitems Hin Hx.
    unfold me. erewrite bind_run by (apply _get_success; exact Hs).
    rewrite Hj. unfold lift. cbn [fst].
    assert (Hjoin : py_join ", " es = Raise TypeError).
    { unfold py_join. rewrite Hitems. cbn [mbind result_bind].
      rewrite (mapM_as_str_not_text items x Hin Hx). reflexivity. }
    rewrite Hname, Hes. cbn [mbind result_bind].
    rewrite Hjoin. reflexivity.
Qed.

Lemma me_returns_the_whole_summary_witness :
  (∃ e', (@me Sample.lib Sample.client false
            (Sample.double 200 (Ok (VDict {[ "name" := VStr "Ann" ]})))).1
         = Raise e')
  ∧ (@me Sample.lib Sample.client false
       (Sample.double 200 (Ok Sample.profile_bad))).1
    = Raise TypeError.
Proof.
  split.
  - destruct (@me_returns_the_whole_summary Sample.lib Sample.client
                (Sample.double 200 (Ok (VDict {[ "name" := VStr "Ann" ]})))
                (VDict {[ "name" := VStr "Ann" ]}))
      as (_ & Hmissing & _); [simpl; lia | reflexivity |].
    apply (Hmissing "login" (KeyError "login")).
    + repeat (first [apply list_elem_of_here | apply list_elem_of_further]).
    + vm_compute. reflexivity.
  - destruct (@me_returns_the_whole_summary Sample.lib Sample.client
                (Sample.double 200 (Ok Sample.profile_bad)) Sample.profile_bad)
      as (_ & _ & Hbad); [simpl; lia | reflexivity |].
    apply (Hbad (VStr "Ann") (VList [VStr "a@x.org"; VInt 7])
             [VStr "a@x.org"; VInt 7] (VInt 7)).
    + vm_compute. reflexivity.
    + vm_compute. reflexivity.
    + reflexivity.
    + apply list_elem_of_further, list_elem_of_here.
    + intros s Heq. discriminate Heq.
Defined.

(** ** The query string and the token *)

(** X11.  Whatever the token, the endpoint and the caller's parameters,
    the URL is the base URL, a slash, the endpoint, a question mark and a
    query string made only of letters, digits and the characters
    [_ . - % + = &]: a token or a parameter cannot put a space, a [#], a
    [?] or a [/] into the query string. *)
Theorem query_string_alphabet `{O : DictOrder} (token endpoint : string)
    (params : gmap string string) :
  ∃ q, _build_url (__init__ token) endpoint params
       = "https://circleci.com/api/v1/" ++ endpoint ++ "?" ++ q
    ∧ Str.nonempty q = true
    ∧ Urlparse.all_in q
        "ABCDEFGHIJKLMNOPQRSTUVWXYZabcdefghijklmnopqrstuvwxyz0123456789_.-%+=&"
      = true.
Proof.
  exists (Urllib.urlencode (new_params (__init__ token) params)).
  split; [apply build_url_unfold|]. split.
  - apply urlencode_nonempty, new_params_nonempty.
  - apply urlencode_alphabet.
Qed.

(** X12.  A token made of letters, digits and [_ . -] only (as the
    service's hexadecimal tokens are) appears in the URL as it is. *)
Theorem safe_token_is_sent_verbatim `{O : DictOrder} (token endpoint : string) :
  Urlparse.all_in token
    "ABCDEFGHIJKLMNOPQRSTUVWXYZabcdefghijklmnopqrstuvwxyz0123456789_.-" = true →
  _build_url (__init__ token) endpoint ∅
  = "https://circleci.com/api/v1/" ++ endpoint ++ "?circle-token=" ++ token.
Proof.
  intros Hsafe. rewrite build_url_unfold.
  unfold new_params, dict_update. rewrite (left_id_L ∅ _), urlencode_singleton.
  cbn [_token __init__].
  rewrite (quote_plus_safe token Hsafe).
  reflexivity.
Qed.

Lemma safe_token_is_sent_verbatim_witness :
  @_build_url Sample.order (__init__ "0a1b2c3d4e5f") "recent-builds" ∅
  = "https://circleci.com/api/v1/recent-builds?circle-token=0a1b2c3d4e5f".
Proof.
  apply (@safe_token_is_sent_verbatim Sample.order "0a1b2c3d4e5f"
           "recent-builds").
  vm_compute. reflexivity.
Defined.

(** ** More on the reshaped results *)

Lemma projects_item_is_text `{L : PyLib} (j v : value) :
  projects_item j = Ok v →
  ∃ u r, subscript j "username" = Ok u ∧ subscript j "reponame" = Ok r
         ∧ v = VStr (format_field u ++ "/" ++ format_field r).
Proof.
  unfold projects_item, mbind, result_bind, mret, result_ret.
  destruct (subscript j "username") as [u|]; [|discriminate].
  destruct (subscript j "reponame") as [r|]; [|discriminate].
  destruct (format_arg u) as [su|] eqn:Hu; [|discriminate].
  destruct (format_arg r) as [sr|] eqn:Hr; [|discriminate].
  apply format_arg_inv in Hu as [_ ->]. apply format_arg_inv in Hr as [_ ->].
  intros Hv. injection Hv as <-. exists u, r. repeat split.
Qed.

Lemma mapM_result_Forall2 {A B} (f : A → result B) (l : list A) (k : list B) :
  mapM f l = Ok k → Forall2 (λ x y, f x = Ok y) l k.
Proof.
  revert k. induction l as [|x l IH]; intros k Hk.
  - injection Hk as <-. constructor.
  - cbn [mapM] in Hk. unfold mbind, result_bind, mret, result_ret in Hk.
    destruct (f x) as [y|] eqn:Hx; [|discriminate].
    fold (mapM f l) in Hk.
    destruct (mapM f l) as [k'|] eqn:Hl; [|discriminate].
    injection Hk as <-. constructor; [exact Hx | apply IH; reflexivity].
Qed.

(** X13.  When non-verbose [projects] returns for a raw list, it returns
    one text per project object, in the order of the raw list, each made
    of the object's [username], a slash and its [reponame]; an object that
    lacks one of the two fields gives no result at all. *)
Theorem projects_one_text_per_object `{L : PyLib} (self : CircleAPI)
    (t : Transport) (raw : list value) (v : value) :
  status_code (respond t (get_request self "projects")) < 400 →
  json (respond t (get_request self "projects")) = Ok (VList raw) →
  (projects self false t).1 = Ok v →
  ∃ out, v = VList out
    ∧ Forall2 (λ j o, ∃ u r, subscript j "username" = Ok u
                        ∧ subscript j "reponame" = Ok r
                        ∧ o = VStr (format_field u ++ "/" ++ format_field r))
        raw out.
Proof.
  intros Hs Hj Hv. unfold projects in Hv.
  erewrite bind_run in Hv by (apply _get_success; exact Hs).
  rewrite Hj in Hv. unfold lift in Hv. cbn [fst py_iter] in Hv.
  unfold mbind at 1, result_bind at 1 in Hv.
  destruct (mapM projects_item raw) as [out|] eqn:Hout; [|discriminate].
  injection Hv as <-. exists out. split; [reflexivity|].
  apply mapM_result_Forall2 in Hout.
  eapply Forall2_impl; [exact Hout|].
  intros j o Hitem. apply projects_item_is_text, Hitem.
Qed.

Lemma projects_one_text_per_object_witness :
  ∃ out, VList [VStr "a/b"; VStr "a/b"] = VList out
    ∧ Forall2 (λ j o, ∃ u r, subscript j "username" = Ok u
                        ∧ subscript j "reponame" = Ok r
                        ∧ o = VStr (@format_field Sample.lib u ++ "/"
                                    ++ @format_field Sample.lib r))
        [Sample.project_ab; Sample.project_ab] out.
Proof.
  apply (@projects_one_text_per_object Sample.lib Sample.client
           (Sample.double 200 (Ok (VList [Sample.project_ab; Sample.project_ab])))
           [Sample.project_ab; Sample.project_ab]).
  - simpl. lia.
  - reflexivity.
  - vm_compute. reflexivity.
Defined.

(** X14.  In every build summary the two methods produce, the build
    number, the trigger, the URL and the result are the record's
    [build_num], [why], [build_url] and [outcome] unchanged, and the queue
    time is the text [strftime] gives, with the fixed format, for the
    record's [queued_at] parsed and moved to the local time zone. *)
Theorem summary_passes_fields_through `{L : PyLib}
    (body : value → result value) (build : value)
    (fields : list (string * value)) :
  body = project_builds_body ∨ body = recent_builds_body →
  body build = Ok (VODict fields) →
  Ok <$> odict_get fields "Build# " = Some (subscript build "build_num")
  ∧ Ok <$> odict_get fields "Trigger" = Some (subscript build "why")
  ∧ Ok <$> odict_get fields "URL    " = Some (subscript build "build_url")
  ∧ Ok <$> odict_get fields "Result " = Some (subscript build "outcome")
  ∧ Ok <$> odict_get fields "Queued "
    = Some (VStr <$> (q ← subscript build "queued_at";
                      dt ← dp_parse q;
                      dt ← astimezone_tzlocal dt;
                      strftime dt "%a, %b %d, %Y %I:%M%p %Z")).
Proof.
  intros Hbody Hok.
  assert (Hpb : project_builds_body build = Ok (VODict fields)).
  { destruct Hbody as [-> | ->]; [exact Hok | rewrite bodies_agree; exact Hok]. }
  destruct (project_builds_body_inv build _ Hpb)
    as (num & email & author & tag & tagfield & q & queued & why & burl
        & outcome & Hnum & _ & _ & _ & Hfield & Hq & Hqueued & Hwhy & Hurl
        & Hout & Ho).
  injection Ho as ->. rewrite Hnum, Hwhy, Hurl, Hout, Hq.
  cbn [mbind result_bind]. rewrite Hqueued.
  assert (Hkey : tagfield.1 = "Tag    " ∨ tagfield.1 = "Branch ").
  { destruct (truthy tag).
    - subst tagfield. left. reflexivity.
    - destruct Hfield as (branch & _ & ->). right. reflexivity. }
  destruct tagfield as [k w]. cbn [fst] in Hkey.
  destruct Hkey as [-> | ->]; repeat split.
Qed.

Lemma summary_passes_fields_through_witness :
  odict_get Sample.summary1 "Build# " = Some (VInt 1)
  ∧ odict_get Sample.summary1 "Queued " = Some (VStr "t1").
Proof.
  destruct (@summary_passes_fields_through Sample.lib
              (@project_builds_body Sample.lib) Sample.build1 Sample.summary1)
    as (Hnum & _ & _ & _ & Hqueued).
  - left. reflexivity.
  - vm_compute. reflexivity.
  - split; vm_compute; reflexivity.
Defined.
